(** * Returns and risk analytics of the stock terminal (src/app.py)

    A shallow embedding of [calculate_cagr] and [calculate_annual_volatility]
    together with the pandas / numpy operations they call, and the properties
    of the specification that concern them.

    Conventions of the embedding.
    - Prices are IEEE binary64 numbers: Rocq's primitive [float], whose
      division, subtraction, multiplication and square root are the
      correctly rounded operations numpy uses.  A missing value is [nan].
    - The index of the price table is a list of calendar days, each day
      given by its day number (an integer).  The provider stamps every daily
      row at midnight, so a day number identifies the timestamp.
    - What the installed libraries leave open is a variable of the section
      [Analytics]: the floating-point power ([**]), the rounding to two
      decimals ([round]), the order in which numpy adds up an array, and the
      default fill method of [pct_change]. *)

From Stdlib Require Import ZArith Ascii String Floats Lia.
From stdpp Require Import base list strings gmap pretty.

Open Scope Z_scope.

(** ** Python results: a value or a raised exception *)

Inductive exn : Type :=
  | KeyError
  | IndexError
  | ZeroDivisionError.

Inductive result (A : Type) : Type :=
  | Ok (a : A)
  | Raise (e : exn).

Arguments Ok {A} a.
Arguments Raise {A} e.

#[global] Instance result_ret : MRet result := fun A a => Ok a.
#[global] Instance result_bind : MBind result :=
  fun A B f m => match m with Ok a => f a | Raise e => Raise e end.

(** ** Numbers *)

(** The binary64 number nearest to an integer (Python's [float(n)], numpy's
    conversion of an integer operand). *)
Definition float_of_Z (z : Z) : float :=
  SF2Prim (binary_normalize prec emax z 0 false).

(** Python's [a / b] on integers.  It raises on a zero divisor.  The quotient
    is the float division of the converted operands, which is Python's
    correctly rounded quotient whenever both operands are below 2^53 in
    absolute value, the case of every horizon that can be evaluated. *)
Definition int_truediv (a b : Z) : result float :=
  if b =? 0 then Raise ZeroDivisionError
  else Ok (float_of_Z a / float_of_Z b)%float.

(** ** Strings: the column-name test *)

(** [str.lower] on the ASCII letters.  A label is a string of bytes; the
    letters outside ASCII keep their bytes, and no such letter lowers to one
    of the letters of "adjclose" in Python either, so the test below agrees
    with Python's on every label. *)
Definition lower_ascii (a : ascii) : ascii :=
  let n := N_of_ascii a in
  if ((65 <=? n) && (n <=? 90))%N then ascii_of_N (n + 32) else a.

Fixpoint lower (s : string) : string :=
  match s with
  | EmptyString => EmptyString
  | String a r => String (lower_ascii a) (lower r)
  end.

(** [s.replace(" ", "")]. *)
Fixpoint remove_spaces (s : string) : string :=
  match s with
  | EmptyString => EmptyString
  | String a r =>
      if Ascii.eqb a " "%char then remove_spaces r
      else String a (remove_spaces r)
  end.

(** [col.lower().replace(" ", "") == "adjclose"]. *)
Definition is_adjclose (col : string) : bool :=
  String.eqb (remove_spaces (lower col)) "adjclose".

(** ** Series and data frames *)

(** A pandas Series with a date index: rows of (day, value). *)
Abbreviation Series := (list (Z * float)).

(** The price table: the date index and the named columns, in table order. *)
Record DataFrame : Type := {
  index : list Z;
  columns : list (string * list float)
}.

(** [len(history)]: the number of rows. *)
Definition len (history : DataFrame) : Z := Z.of_nat (length (index history)).

(** [next((col for col in history.columns if ...), None)]. *)
Definition adj_col (history : DataFrame) : option string :=
  List.find is_adjclose (map fst (columns history)).

(** [history[c]]: the column labelled [c] with the frame's index ([KeyError]
    for an unknown label).  Labels are distinct in a well-formed table, so
    the first match is the column. *)
Definition getitem (history : DataFrame) (c : string) : result Series :=
  match List.find (fun col => String.eqb (fst col) c) (columns history) with
  | Some col => Ok (combine (index history) (snd col))
  | None => Raise KeyError
  end.

(** [s.iloc[i]]: positional access, a negative position counting from the
    end, [IndexError] out of range. *)
Definition iloc (s : Series) (i : Z) : result float :=
  let n := Z.of_nat (length s) in
  let j := if i <? 0 then n + i else i in
  if (0 <=? j) && (j <? n) then
    match s !! Z.to_nat j with
    | Some row => Ok (snd row)
    | None => Raise IndexError
    end
  else Raise IndexError.

(** [s.dropna()]: the rows whose value is not missing. *)
Definition dropna (s : Series) : Series :=
  List.filter (fun row => negb (is_nan (snd row))) s.

(** The value of the last row dated on or before day [d] (what
    [reindex(method="ffill")] picks for the label [d]); [nan] when there is
    none. *)
Definition asof (s : Series) (d : Z) : float :=
  fold_left (fun acc row => if fst row <=? d then snd row else acc) s nan.

(** [s.resample('1D').ffill()] on a series whose dates increase: one row per
    calendar day from the first date to the last, each with the value of the
    latest row on or before that day.  Values that are already missing stay
    missing: the fill goes by index labels, not by values. *)
Definition resample_1D_ffill (s : Series) : Series :=
  match s with
  | [] => []
  | (d0, _) :: _ =>
      let dn := List.last (map fst s) d0 in
      map (fun d => (d, asof s d)) (seqZ d0 (dn - d0 + 1))
  end.

(** The invariant of a price table: dates strictly increase, column labels
    are distinct, every column has one cell per row. *)
Fixpoint increasing (l : list Z) : bool :=
  match l with
  | a :: (b :: _) as r => (a <? b) && increasing r
  | _ => true
  end.

Fixpoint distinct (l : list string) : bool :=
  match l with
  | [] => true
  | x :: r => negb (existsb (String.eqb x) r) && distinct r
  end.

Definition wf_frame (history : DataFrame) : bool :=
  increasing (index history)
  && distinct (map fst (columns history))
  && forallb (fun col => (length (snd col) =? length (index history))%nat)
       (columns history).

(** ** The analytics *)

(** A cell of the CAGR table: a percentage or the marker ["N/A"]. *)
Inductive cagr_value : Type :=
  | Pct (v : float)
  | NA.

(** [f"{yr}Y"]. *)
Definition label (yr : Z) : string := pretty yr +:+ "Y".

(** [Series.ffill] on the values. *)
Fixpoint ffill_from (prev : float) (xs : list float) : list float :=
  match xs with
  | [] => []
  | x :: r =>
      let y := if is_nan x then prev else x in
      y :: ffill_from y r
  end.

Definition ffill (xs : list float) : list float := ffill_from nan xs.

(** [data.shift(1)]: every value moves one row down, the first is missing. *)
Definition shift1 (xs : list float) : list float :=
  match xs with
  | [] => []
  | _ => nan :: removelast xs
  end.

Section Analytics.

(** pandas' default [fill_method] of [pct_change]: [true] for ["pad"]
    (pandas 2 and earlier), [false] for no filling (pandas 3). *)
Variable pad_default : bool.
(** numpy's sum of an array of floats; the order of its additions is an
    implementation detail of the installed numpy. *)
Variable np_sum : list float -> float.
(** The C library's [pow] behind [**] on floats. *)
Variable float_pow : float -> float -> float.
(** [round(x, 2)] on a float. *)
Variable round2 : float -> float.

(** [s.pct_change()]: [data / data.shift(1) - 1]. *)
Definition pct_change (s : Series) : Series :=
  let values := map snd s in
  let data := if pad_default then ffill values else values in
  combine (map fst s)
    (zip_with (fun x y => x / y - 1)%float data (shift1 data)).

(** [Series.std(ddof=ddof)] on values without missing entries (pandas'
    [nanvar] followed by a square root): missing when no more than [ddof]
    values are present. *)
Definition series_std (ddof : Z) (values : list float) : float :=
  let count := Z.of_nat (length values) in
  if count <=? ddof then nan
  else
    let avg := (np_sum values / float_of_Z count)%float in
    let sqr := map (fun x => ((avg - x) * (avg - x))%float) values in
    PrimFloat.sqrt (np_sum sqr / float_of_Z (count - ddof))%float.

(** [np.std(s)] on a Series: numpy hands over to [s.std] with its own
    default [ddof=0]. *)
Definition np_std (s : Series) : float := series_std 0 (map snd s).

(** The body of the loop over [years].  The dict is a finite map: what is
    found under a key and which keys there are is modelled, the order in
    which the dict lists its items is not. *)
Definition cagr_body (end_price : float) (start_price : Series)
    (cagr_results : gmap string cagr_value) (yr : Z)
    : result (gmap string cagr_value) :=
  let days := 252 * yr in
  if days <=? Z.of_nat (length start_price) then
    start ← iloc start_price (- days);
    e ← int_truediv 1 yr;
    let cagr := (float_pow (end_price / start) e - 1)%float in
    Ok (<[label yr := Pct (round2 (cagr * 100)%float)]> cagr_results)
  else
    Ok (<[label yr := NA]> cagr_results).

Fixpoint cagr_loop (end_price : float) (start_price : Series)
    (cagr_results : gmap string cagr_value) (years : list Z)
    : result (gmap string cagr_value) :=
  match years with
  | [] => Ok cagr_results
  | yr :: rest =>
      r ← cagr_body end_price start_price cagr_results yr;
      cagr_loop end_price start_price r rest
  end.

Definition calculate_cagr (history : DataFrame) (years : list Z)
    : result (option (gmap string cagr_value)) :=
  match adj_col history with
  | None => Ok None
  | Some c =>
      if len history =? 0 then Ok None
      else
        col ← getitem history c;
        end_price ← iloc col (-1);
        let start_price := dropna (resample_1D_ffill col) in
        cagr_results ← cagr_loop end_price start_price ∅ years;
        Ok (Some cagr_results)
  end.

Definition calculate_annual_volatility (history : DataFrame)
    : result (option float) :=
  match adj_col history with
  | None => Ok None
  | Some c =>
      if len history <? 2 then Ok None
      else
        col ← getitem history c;
        let daily_returns := dropna (pct_change col) in
        let daily_vol := np_std daily_returns in
        let annual_vol := (daily_vol * PrimFloat.sqrt 252)%float in
        Ok (Some (round2 (annual_vol * 100)%float))
  end.

End Analytics.

(** ** Reference instances of the library functions

    Used to run the model on concrete tables. *)

(** Left-to-right summation from zero: numpy's order on arrays of fewer
    than eight elements. *)
Definition seq_sum (xs : list float) : float :=
  fold_left (fun acc x => (acc + x)%float) xs 0%float.

(** Rounding to the nearest integer, ties to even ([rint]): adding and
    subtracting 2^52 rounds away the fraction bits of a number below 2^52 in
    absolute value; larger numbers, infinities and [nan] are their own
    rounding.  A zero result keeps the sign of the argument. *)
Definition rint (x : float) : float :=
  if (PrimFloat.abs x <? 0x1p+52)%float then
    let r := if (x <? 0)%float then ((x - 0x1p+52) + 0x1p+52)%float
             else ((x + 0x1p+52) - 0x1p+52)%float in
    if (r =? 0)%float then (if get_sign x then (-0)%float else 0%float) else r
  else x.

(** numpy's [round(x, 2)]: scale by 100, round to an integer, scale back. *)
Definition np_round2 (x : float) : float := (rint (x * 100) / 100)%float.

(** ** Vocabulary of the specification *)

(** The adjusted-close series after the resampling step of [calculate_cagr]:
    daily calendar, gaps filled forward, missing rows dropped. *)
Definition resampled (col : Series) : Series := dropna (resample_1D_ffill col).

(** A horizon is "not available": no result at all, or the marker in its
    cell. *)
Definition not_available (r : result (option (gmap string cagr_value)))
    (yr : Z) : Prop :=
  r = Ok None \/ exists d, r = Ok (Some d) /\ d !! label yr = Some NA.

(** The number of calendar days from the first to the last date of the
    index, both included. *)
Definition span (history : DataFrame) : Z :=
  match index history with
  | [] => 0
  | d0 :: _ => List.last (index history) d0 - d0 + 1
  end.

(** A series with exactly one row per calendar day from its first date on. *)
Definition daily (s : Series) : Prop :=
  match s with
  | [] => True
  | (d0, _) :: _ => map fst s = seqZ d0 (Z.of_nat (length s))
  end.

(** No value of the list is missing. *)
Definition all_present (xs : list float) : bool :=
  forallb (fun x => negb (is_nan x)) xs.





(** *** The daily series the specification describes (section 4.1)

    "The series is resampled onto a contiguous daily calendar (one entry
    per calendar day from first to last date) by carrying forward the last
    known adjusted close into any gap day, then dropping any leading days
    that still have no value."  These definitions follow that sentence, not
    the code. *)

(** An observation that is known on day [d]: dated on or before [d], with
    an adjusted close that is not missing. *)
Definition known_on (d : Z) (row : Z * float) : bool :=
  (fst row <=? d) && negb (is_nan (snd row)).

(** The last known adjusted close on day [d], if there is one. *)
Definition last_known (s : Series) (d : Z) : option float :=
  snd <$> last (List.filter (known_on d) s).

(** The contiguous daily calendar: every calendar day from the first date
    of the series to its last. *)
Definition calendar (s : Series) : list Z :=
  match head s, last s with
  | Some first, Some final => seqZ (fst first) (fst final - fst first + 1)
  | _, _ => []
  end.

(** Dropping the leading days that have no value. *)
Fixpoint drop_leading_empty (days : list (Z * option float))
    : list (Z * option float) :=
  match days with
  | (_, None) :: rest => drop_leading_empty rest
  | _ => days
  end.

(** The forward-filled daily-resampled series: one entry per calendar day,
    each with the last known adjusted close, leading empty days dropped. *)
Definition forward_filled_daily (s : Series) : list (Z * option float) :=
  drop_leading_empty (map (fun d => (d, last_known s d)) (calendar s)).

(** No adjusted close is missing after the first one that is present. *)
Fixpoint missing_only_leading (xs : list float) : bool :=
  match xs with
  | [] => true
  | x :: rest =>
      if is_nan x then missing_only_leading rest else all_present rest
  end.

(** A row of a series as an entry of the daily series, and the entries that
    have a value. *)
Definition present_entry (row : Z * float) : Z * option float :=
  (fst row, Some (snd row)).

Definition has_value (entry : Z * option float) : bool :=
  match snd entry with
  | Some _ => true
  | None => false
  end.

(** *** The volatility the specification describes (section 4.1) *)



(** Every adjusted-close value multiplied by [c]. *)
Definition scale_adj_close (c : float) (history : DataFrame) : DataFrame :=
  {| index := index history;
     columns :=
       map (fun col =>
              if is_adjclose (fst col)
              then (fst col, map (fun p => (c * p)%float) (snd col))
              else col)
           (columns history) |}.

(** A value of data scaled by [k] next to the value of the original data at
    the same position: both missing, or a price and its multiple. *)
Definition scaled_pair (k : float) (prices : list float) (y' y : float)
    : Prop :=
  (y' = nan /\ y = nan) \/ (y ∈ prices /\ y' = (k * y)%float).

(** Scaling by [c] is exact on a list of prices: it keeps missing values
    missing and present values present, and leaves the quotient of any two
    prices unchanged. *)
Definition scaling_exact (c : float) (prices : list float) : bool :=
  forallb (fun p => Bool.eqb (is_nan (c * p)%float) (is_nan p)) prices
  && forallb
       (fun p =>
          forallb (fun q => Leibniz.eqb ((c * q) / (c * p))%float (q / p)%float)
            prices)
       prices.

(** ** Example tables *)

(** Two trading rows 260 calendar days apart. *)
Definition sparse_history : DataFrame :=
  {| index := [0; 260];
     columns := [("Close"%string, [101; 111]%float);
                 ("Adj Close"%string, [100; 110]%float)] |}.

(** Four consecutive trading days around a weekend gap. *)
Definition week_history : DataFrame :=
  {| index := [3; 4; 7; 8];
     columns := [("Adj Close"%string, [100; 102; 101; 104]%float);
                 ("Volume"%string, [5000; 7000; 6000; 6500]%float)] |}.

(** The adjusted-close series of the two example tables above. *)
Definition sparse_close : Series := [(0, 100%float); (260, 110%float)].

Definition week_close : Series :=
  [(3, 100%float); (4, 102%float); (7, 101%float); (8, 104%float)].

(** Two trading rows 504 calendar days apart. *)
Definition long_history : DataFrame :=
  {| index := [0; 504];
     columns := [("Adj Close"%string, [100; 110]%float)] |}.

(** A table without an adjusted-close column. *)
Definition bare_history : DataFrame :=
  {| index := [0; 1; 2];
     columns := [("Open"%string, [10; 11; 12]%float);
                 ("Close"%string, [11; 12; 13]%float)] |}.

(** A table without rows. *)
Definition empty_history : DataFrame :=
  {| index := []; columns := [("Adj Close"%string, [])] |}.

(** Three consecutive days. *)
Definition three_days : Series := [(10, 1%float); (11, 2%float); (12, 4%float)].

(** Two rows at the largest power of two of binary64: doubling overflows. *)
Definition huge_history : DataFrame :=
  {| index := [0; 1];
     columns := [("Adj Close"%string, [0x1p+1023; 0x1p+1023]%float)] |}.

(** Prices that are powers of two. *)
Definition binary_history : DataFrame :=
  {| index := [0; 1; 2];
     columns := [("Adj Close"%string, [1; 2; 8]%float)] |}.

(** The scenarios of the specification: a hundred daily rows, and a year of
    252 daily rows at 100 followed by one row at 110. *)
Definition hundred_days : DataFrame :=
  {| index := seqZ 0 100;
     columns := [("Adj Close"%string, replicate 100 100%float)] |}.

Definition flat_year : DataFrame :=
  {| index := seqZ 0 253;
     columns := [("Adj Close"%string, replicate 252 100%float ++ [110%float])] |}.

(** Three rows over 260 calendar days, the adjusted close of the middle one
    missing. *)
Definition gap_history : DataFrame :=
  {| index := [0; 100; 260];
     columns := [("Adj Close"%string, [100; nan; 110]%float)] |}.

Definition gap_close : Series :=
  [(0, 100%float); (100, nan); (260, 110%float)].

(** Three rows over 300 calendar days, the adjusted close of the first one
    missing. *)
Definition late_start_history : DataFrame :=
  {| index := [0; 5; 300];
     columns := [("Adj Close"%string, [nan; 100; 110]%float)] |}.

Definition late_start_close : Series :=
  [(0, nan); (5, 100%float); (300, 110%float)].



(** The cell the loop body of [calculate_cagr] writes for one horizon. *)
Definition cagr_cell (float_pow : float -> float -> float)
    (round2 : float -> float) (end_price : float) (start_price : Series)
    (yr : Z) : result cagr_value :=
  let days := 252 * yr in
  if days <=? Z.of_nat (length start_price) then
    start ← iloc start_price (- days);
    e ← int_truediv 1 yr;
    Ok (Pct (round2 ((float_pow (end_price / start) e - 1) * 100)%float))
  else Ok NA.

(** * Facts about the embedded operations *)

(** ** Labels *)

Lemma append_Y_inj (s1 s2 : string) : s1 +:+ "Y" = s2 +:+ "Y" -> s1 = s2.
Proof.
  revert s2. induction s1 as [|a s1 IH]; intros [|b s2]; simpl; try done.
  - intros H. injection H as _ H. by destruct s2.
  - intros H. injection H as _ H. by destruct s1.
  - intros H. injection H as -> H. f_equal. by apply IH.
Qed.

Lemma label_inj (yr1 yr2 : Z) : label yr1 = label yr2 -> yr1 = yr2.
Proof.
  unfold label. intros H. apply append_Y_inj in H.
  by apply (inj pretty) in H.
Qed.

(** ** Column selection *)

Lemma find_label_in (cols : list (string * list float)) (c : string) :
  c ∈ map fst cols ->
  exists values,
    (c, values) ∈ cols /\
    List.find (fun col => String.eqb (fst col) c) cols = Some (c, values).
Proof.
  induction cols as [|[n vs] cols IH]; simpl.
  - intros H. by apply elem_of_nil in H.
  - intros H. destruct (String.eqb n c) eqn:E.
    + apply String.eqb_eq in E as ->. exists vs. split; [left | done].
    + apply elem_of_cons in H as [->|H].
      * by rewrite String.eqb_refl in E.
      * destruct (IH H) as (values & Hin & Hf). exists values.
        split; [by right | done].
Qed.

Lemma adj_col_in (history : DataFrame) (c : string) :
  adj_col history = Some c ->
  c ∈ map fst (columns history) /\ is_adjclose c = true.
Proof.
  unfold adj_col. intros H. apply find_some in H as [Hin Hc].
  split; [by apply list_elem_of_In | done].
Qed.

Lemma adj_col_getitem (history : DataFrame) (c : string) :
  adj_col history = Some c ->
  exists values,
    (c, values) ∈ columns history /\
    getitem history c = Ok (combine (index history) values).
Proof.
  intros H. apply adj_col_in in H as [Hin _].
  destruct (find_label_in _ _ Hin) as (values & Hv & Hf).
  exists values. split; [done|]. unfold getitem. by rewrite Hf.
Qed.

Lemma adj_col_none (history : DataFrame) :
  adj_col history = None <->
  forall c, c ∈ map fst (columns history) -> is_adjclose c = false.
Proof.
  unfold adj_col. split.
  - intros H c Hc. apply list_elem_of_In in Hc.
    exact (find_none _ _ H c Hc).
  - intros H. destruct (List.find _ _) as [c|] eqn:E; [|done].
    apply find_some in E as [Hin Hc]. apply list_elem_of_In in Hin.
    rewrite (H c Hin) in Hc. done.
Qed.

(** ** Well-formed tables *)

Lemma wf_frame_length (history : DataFrame) (c : string) (values : list float) :
  wf_frame history = true ->
  (c, values) ∈ columns history ->
  length values = length (index history).
Proof.
  unfold wf_frame. intros H Hin.
  apply andb_prop in H as [_ H].
  rewrite forallb_forall in H. apply list_elem_of_In in Hin.
  specialize (H _ Hin). simpl in H. by apply Nat.eqb_eq in H.
Qed.

Lemma wf_frame_increasing (history : DataFrame) :
  wf_frame history = true -> increasing (index history) = true.
Proof.
  unfold wf_frame. intros H.
  apply andb_prop in H as [H _]. by apply andb_prop in H as [H _].
Qed.

Lemma combine_fst (l : list Z) (vs : list float) :
  length vs = length l -> map fst (combine l vs) = l.
Proof.
  revert vs. induction l as [|a l IH]; intros [|v vs]; simpl; try done.
  intros H. f_equal. apply IH. lia.
Qed.

Lemma combine_snd (l : list Z) (vs : list float) :
  length vs = length l -> map snd (combine l vs) = vs.
Proof.
  revert vs. induction l as [|a l IH]; intros [|v vs]; simpl; try done.
  intros H. f_equal. apply IH. lia.
Qed.

Lemma wf_frame_column (history : DataFrame) (c : string) :
  wf_frame history = true ->
  adj_col history = Some c ->
  exists col,
    getitem history c = Ok col /\
    map fst col = index history /\
    (c, map snd col) ∈ columns history.
Proof.
  intros Hwf Hc. destruct (adj_col_getitem _ _ Hc) as (values & Hin & Hg).
  pose proof (wf_frame_length _ _ _ Hwf Hin) as Hl.
  exists (combine (index history) values). split; [done|].
  rewrite combine_fst, combine_snd by done. done.
Qed.

(** ** Positional access *)

Lemma iloc_from_end (s : Series) (k : Z) :
  0 < k <= Z.of_nat (length s) ->
  exists row,
    reverse s !! Z.to_nat (k - 1) = Some row /\ iloc s (- k) = Ok (snd row).
Proof.
  intros Hk. unfold iloc.
  replace (- k <? 0) with true by (symmetry; apply Z.ltb_lt; lia).
  replace ((0 <=? Z.of_nat (length s) + - k)
           && (Z.of_nat (length s) + - k <? Z.of_nat (length s))) with true
    by (symmetry; apply andb_true_intro; split;
        [apply Z.leb_le | apply Z.ltb_lt]; lia).
  rewrite reverse_lookup by lia.
  replace (length s - S (Z.to_nat (k - 1)))%nat
    with (Z.to_nat (Z.of_nat (length s) + - k)) by lia.
  destruct (s !! Z.to_nat (Z.of_nat (length s) + - k)) as [row|] eqn:E.
  - by exists row.
  - apply lookup_ge_None in E. lia.
Qed.

Lemma iloc_last (s : Series) :
  s <> [] -> exists row, last s = Some row /\ iloc s (-1) = Ok (snd row).
Proof.
  intros Hs. destruct (iloc_from_end s 1) as (row & Hr & Hi).
  - destruct s; [done | simpl; lia].
  - exists row. split; [|done].
    rewrite last_lookup. rewrite reverse_lookup in Hr.
    + simpl in Hr. rewrite <- Hr. f_equal. lia.
    + destruct s; [done | simpl; lia].
Qed.

(** ** The loop over the horizons *)

Section CagrLoop.

Variable float_pow : float -> float -> float.
Variable round2 : float -> float.
Variable end_price : float.
Variable start_price : Series.

Local Abbreviation cell := (cagr_cell float_pow round2 end_price start_price).
Local Abbreviation body := (cagr_body float_pow round2 end_price start_price).
Local Abbreviation loop := (cagr_loop float_pow round2 end_price start_price).

Lemma cagr_body_cell (acc : gmap string cagr_value) (yr : Z) :
  body acc yr = v ← cell yr; Ok (<[label yr := v]> acc).
Proof.
  unfold cagr_body, cagr_cell.
  destruct (252 * yr <=? Z.of_nat (length start_price)); [|done].
  destruct (iloc start_price (- (252 * yr))); [|done]. simpl.
  destruct (int_truediv 1 yr); done.
Qed.

(** A positive horizon never raises. *)
Lemma cagr_cell_positive (yr : Z) :
  0 < yr -> exists v, cell yr = Ok v.
Proof.
  intros Hyr. unfold cagr_cell.
  destruct (252 * yr <=? Z.of_nat (length start_price)) eqn:E; [|by eexists].
  apply Z.leb_le in E.
  destruct (iloc_from_end start_price (252 * yr)) as (row & _ & ->); [lia|].
  unfold int_truediv. replace (yr =? 0) with false
    by (symmetry; apply Z.eqb_neq; lia).
  simpl. by eexists.
Qed.

(** The cell of a short history is the marker, that of a long one a
    percentage. *)
Lemma cagr_cell_NA (yr : Z) :
  0 < yr ->
  (cell yr = Ok NA <-> Z.of_nat (length start_price) < 252 * yr).
Proof.
  intros Hyr. unfold cagr_cell.
  destruct (252 * yr <=? Z.of_nat (length start_price)) eqn:E.
  - apply Z.leb_le in E.
    destruct (iloc_from_end start_price (252 * yr)) as (row & _ & ->); [lia|].
    unfold int_truediv. replace (yr =? 0) with false
      by (symmetry; apply Z.eqb_neq; lia).
    simpl. split; [done | intros; lia].
  - apply Z.leb_gt in E. split; [intros; lia | done].
Qed.

Lemma cagr_cell_Pct (yr : Z) (row : Z * float) :
  0 < yr ->
  reverse start_price !! Z.to_nat (252 * yr - 1) = Some row ->
  cell yr =
    Ok (Pct (round2
      ((float_pow (end_price / snd row) (1 / float_of_Z yr) - 1) * 100)%float)).
Proof.
  intros Hyr Hrow. unfold cagr_cell.
  assert (Z.to_nat (252 * yr - 1) < length start_price)%nat as Hlt.
  { apply lookup_lt_Some in Hrow. by rewrite length_reverse in Hrow. }
  replace (252 * yr <=? Z.of_nat (length start_price)) with true
    by (symmetry; apply Z.leb_le; lia).
  destruct (iloc_from_end start_price (252 * yr)) as (row' & Hr & ->); [lia|].
  rewrite Hrow in Hr. injection Hr as <-.
  unfold int_truediv. replace (yr =? 0) with false
    by (symmetry; apply Z.eqb_neq; lia).
  reflexivity.
Qed.

(** What the finished loop holds: the cell of every horizon it went
    through, and the initial content elsewhere. *)
Lemma cagr_loop_lookup (years : list Z) :
  forall (acc d : gmap string cagr_value) (yr : Z),
    loop acc years = Ok d ->
    (yr ∈ years -> exists v, cell yr = Ok v /\ d !! label yr = Some v) /\
    (yr ∉ years -> d !! label yr = acc !! label yr).
Proof.
  induction years as [|yr0 rest IH]; intros acc d yr; simpl.
  - intros [= <-]. split; [|done]. intros H. by apply elem_of_nil in H.
  - rewrite cagr_body_cell.
    destruct (cell yr0) as [v0|] eqn:E0; simpl; [|done].
    intros Hloop. destruct (IH _ _ yr Hloop) as [Hin Hout].
    destruct (decide (yr ∈ rest)) as [Hr|Hr].
    + split; [auto|]. intros Hn. exfalso. apply Hn. by right.
    + specialize (Hout Hr). split.
      * intros Hy. apply elem_of_cons in Hy as [->|Hy]; [|done].
        exists v0. split; [done|]. by rewrite Hout, lookup_insert_eq.
      * intros Hn. rewrite Hout. apply lookup_insert_ne.
        intros Hl. apply label_inj in Hl as ->. apply Hn. by left.
Qed.

Lemma cagr_loop_positive (years : list Z) :
  Forall (fun yr => 0 < yr) years ->
  forall acc, exists d, loop acc years = Ok d.
Proof.
  induction 1 as [|yr rest Hyr _ IH]; intros acc; simpl.
  - by eexists.
  - rewrite cagr_body_cell.
    destruct (cagr_cell_positive yr Hyr) as [v ->]. simpl. apply IH.
Qed.

End CagrLoop.

(** [calculate_cagr] on a table with an adjusted-close column and at least
    one row: the loop runs on the last price and the resampled series. *)
Lemma calculate_cagr_unfold (float_pow : float -> float -> float)
    (round2 : float -> float) (history : DataFrame) (years : list Z)
    (c : string) (col : Series) :
  wf_frame history = true ->
  adj_col history = Some c ->
  getitem history c = Ok col ->
  0 < len history ->
  exists row,
    last col = Some row /\
    calculate_cagr float_pow round2 history years =
      d ← cagr_loop float_pow round2 (snd row) (resampled col) ∅ years;
      Ok (Some d).
Proof.
  intros Hwf Hc Hg Hlen.
  destruct (wf_frame_column _ _ Hwf Hc) as (col' & Hg' & Hfst & _).
  rewrite Hg in Hg'. injection Hg' as <-.
  assert (col <> []) as Hne.
  { intros ->. unfold len in Hlen. rewrite <- Hfst in Hlen. simpl in Hlen. lia. }
  destruct (iloc_last col Hne) as (row & Hlast & Hi).
  exists row. split; [done|].
  unfold calculate_cagr. rewrite Hc.
  replace (len history =? 0) with false by (symmetry; apply Z.eqb_neq; lia).
  rewrite Hg. simpl. rewrite Hi. reflexivity.
Qed.

(** ** The resampled series *)

Lemma resampled_nil : resampled [] = [].
Proof. reflexivity. Qed.

Lemma resample_1D_ffill_dates (s : Series) (d0 : Z) (v0 : float) (r : Series) :
  s = (d0, v0) :: r ->
  map fst (resample_1D_ffill s)
  = seqZ d0 (List.last (map fst s) d0 - d0 + 1).
Proof.
  intros ->. unfold resample_1D_ffill.
  rewrite <- list_fmap_compose. apply list_fmap_id.
Qed.

Lemma resample_1D_ffill_lookup (s : Series) (i : nat) (row : Z * float) :
  resample_1D_ffill s !! i = Some row -> snd row = asof s (fst row).
Proof.
  destruct s as [|[d0 v0] r]; [done|]. unfold resample_1D_ffill.
  change (map ?f ?l) with (f <$> l).
  rewrite list_lookup_fmap. destruct (seqZ _ _ !! i); [|done].
  simpl. by intros [= <-].
Qed.

Lemma resampled_length_span (history : DataFrame) (col : Series) :
  map fst col = index history ->
  Z.of_nat (length (resampled col)) <= Z.max 0 (span history).
Proof.
  intros Hfst. unfold resampled, dropna, span.
  etransitivity; [apply inj_le, filter_length_le|].
  rewrite <- Hfst. destruct col as [|[d0 v0] r]; [simpl; lia|].
  unfold resample_1D_ffill. rewrite length_map, length_seqZ. simpl. lia.
Qed.

Lemma dropna_all_present (s : Series) :
  all_present (map snd s) = true -> dropna s = s.
Proof.
  unfold all_present, dropna. intros H. apply forallb_filter_id.
  induction s as [|row s IH]; simpl in *; [done|].
  apply andb_prop in H as [-> H]. simpl. by apply IH.
Qed.

Lemma last_cons_default (b : Z) (l : list Z) (x y : Z) :
  List.last (b :: l) x = List.last (b :: l) y.
Proof.
  revert b. induction l as [|c l IH]; intros b; [done|]. apply (IH c).
Qed.

Lemma increasing_first_last (a : Z) (l : list Z) :
  increasing (a :: l) = true -> a <= List.last (a :: l) a.
Proof.
  revert a. induction l as [|b l IH]; intros a H; [simpl; lia|].
  change (increasing (a :: b :: l))
    with ((a <? b) && increasing (b :: l)) in H.
  apply andb_prop in H as [Hab H]. apply Z.ltb_lt in Hab.
  change (List.last (a :: b :: l) a) with (List.last (b :: l) a).
  rewrite (last_cons_default b l a b). specialize (IH b H). lia.
Qed.

Lemma asof_present (s : Series) (d : Z) :
  all_present (map snd s) = true ->
  forall acc, is_nan acc = false ->
    is_nan (fold_left (fun acc row => if fst row <=? d then snd row else acc)
              s acc) = false.
Proof.
  unfold all_present. induction s as [|row s IH]; simpl; [done|].
  intros H acc Hacc. apply andb_prop in H as [Hrow H].
  apply negb_true_iff in Hrow. apply IH; [done|].
  by destruct (fst row <=? d).
Qed.

(** Filling forward brings in no missing value. *)
Lemma resample_1D_ffill_present (s : Series) :
  all_present (map snd s) = true ->
  all_present (map snd (resample_1D_ffill s)) = true.
Proof.
  intros Hp. destruct s as [|[d0 v0] r]; [done|].
  unfold resample_1D_ffill, all_present.
  rewrite forallb_forall. intros v Hv.
  apply in_map_iff in Hv as (row & <- & Hrow).
  apply in_map_iff in Hrow as (d & <- & Hd).
  apply list_elem_of_In, elem_of_seqZ in Hd.
  apply negb_true_iff. unfold asof. simpl.
  replace (d0 <=? d) with true by (symmetry; apply Z.leb_le; lia).
  pose proof Hp as Hp'. unfold all_present in Hp'. simpl in Hp'.
  apply andb_prop in Hp' as [Hv0 Hr]. apply negb_true_iff in Hv0.
  by apply asof_present.
Qed.

(** On a well-formed table without missing adjusted close, the resampled
    series has exactly one row for every calendar day of the span. *)
Lemma resampled_length_present (history : DataFrame) (c : string)
    (col : Series) :
  wf_frame history = true ->
  adj_col history = Some c ->
  getitem history c = Ok col ->
  all_present (map snd col) = true ->
  Z.of_nat (length (resampled col)) = span history.
Proof.
  intros Hwf Hc Hg Hp.
  destruct (wf_frame_column _ _ Hwf Hc) as (col' & Hg' & Hfst & _).
  rewrite Hg in Hg'. injection Hg' as <-.
  pose proof (wf_frame_increasing _ Hwf) as Hinc.
  unfold resampled.
  rewrite dropna_all_present by (by apply resample_1D_ffill_present).
  unfold span. rewrite <- Hfst in *.
  destruct col as [|[d0 v0] r]; [done|].
  unfold resample_1D_ffill. rewrite length_map, length_seqZ.
  change (map fst ((d0, v0) :: r)) with (d0 :: map fst r) in *.
  apply increasing_first_last in Hinc. lia.
Qed.

(** * The claims about [calculate_cagr] *)

(** C10. On a price table, for positive horizons yr' <= yr that were both
    requested: when [calculate_cagr] reports a percentage for yr, it reports
    a percentage for yr' as well. *)
Theorem cagr_available_antitone (float_pow : float -> float -> float)
    (round2 : float -> float) (history : DataFrame) (years : list Z)
    (d : gmap string cagr_value) (yr yr' : Z) (v : float) :
  wf_frame history = true ->
  calculate_cagr float_pow round2 history years = Ok (Some d) ->
  yr ∈ years ->
  yr' ∈ years ->
  0 < yr' <= yr ->
  d !! label yr = Some (Pct v) ->
  exists v', d !! label yr' = Some (Pct v').
Proof.
  intros _ Hcalc Hyr Hyr' Hle Hv. unfold calculate_cagr in Hcalc.
  destruct (adj_col history) as [c|]; [|done].
  destruct (len history =? 0); [done|].
  destruct (getitem history c) as [col|]; [|done]. simpl in Hcalc.
  destruct (iloc col (-1)) as [end_price|]; [|done]. simpl in Hcalc.
  destruct (cagr_loop _ _ _ _ _ years) as [d'|] eqn:Hd; [|done].
  injection Hcalc as ->.
  destruct (cagr_loop_lookup _ _ _ _ _ _ _ yr Hd) as [Hin _].
  destruct (Hin Hyr) as (w & Hw & Hdw).
  destruct (cagr_loop_lookup _ _ _ _ _ _ _ yr' Hd) as [Hin' _].
  destruct (Hin' Hyr') as (w' & Hw' & ->).
  rewrite Hv in Hdw. injection Hdw as <-.
  destruct w' as [v'|]; [by exists v'|]. exfalso.
  apply cagr_cell_NA in Hw'; [|lia].
  unfold cagr_cell in Hw.
  destruct (252 * yr <=? Z.of_nat (length (dropna (resample_1D_ffill col))))
    eqn:E; [|done].
  apply Z.leb_le in E. unfold resampled in Hw'. lia.
Qed.

(** C4, as amended. On a price table, for a positive horizon among positive
    horizons: when the table spans fewer calendar days, first date to last
    date included, than 252 * horizon, the horizon is not available. *)
Theorem cagr_not_available_short_span (float_pow : float -> float -> float)
    (round2 : float -> float) (history : DataFrame) (years : list Z)
    (yr : Z) :
  wf_frame history = true ->
  Forall (fun y => 0 < y) years ->
  yr ∈ years ->
  span history < 252 * yr ->
  not_available (calculate_cagr float_pow round2 history years) yr.
Proof.
  intros Hwf Hpos Hyr Hspan.
  destruct (adj_col history) as [c|] eqn:Hc;
    [|left; unfold calculate_cagr; by rewrite Hc].
  destruct (len history =? 0) eqn:Hlen;
    [left; unfold calculate_cagr; by rewrite Hc, Hlen|].
  apply Z.eqb_neq in Hlen.
  assert (0 < len history) as Hlen' by (unfold len in *; lia).
  destruct (wf_frame_column _ _ Hwf Hc) as (col & Hg & Hfst & _).
  destruct (calculate_cagr_unfold float_pow round2 _ years _ _ Hwf Hc Hg Hlen')
    as (row & _ & ->).
  destruct (cagr_loop_positive float_pow round2 (snd row) (resampled col)
              years Hpos ∅) as [d Hd].
  rewrite Hd. right. exists d. split; [done|].
  destruct (cagr_loop_lookup _ _ _ _ _ _ _ yr Hd) as [Hin _].
  destruct (Hin Hyr) as (v & Hv & ->). f_equal.
  rewrite Forall_forall in Hpos. specialize (Hpos yr Hyr).
  assert (cagr_cell float_pow round2 (snd row) (resampled col) yr = Ok NA)
    as HNA.
  { apply cagr_cell_NA; [done|].
    pose proof (resampled_length_span history col Hfst). lia. }
  congruence.
Qed.

(** C6. On a price table none of whose column names, lowercased and with
    spaces removed, is "adjclose", [calculate_cagr] (for any horizons) and
    [calculate_annual_volatility] both return [None]; neither raises. *)
Theorem no_adjclose_no_result (pad_default : bool)
    (np_sum : list float -> float) (float_pow : float -> float -> float)
    (round2 : float -> float) (history : DataFrame) (years : list Z) :
  (forall c, c ∈ map fst (columns history) -> is_adjclose c = false) ->
  calculate_cagr float_pow round2 history years = Ok None /\
  calculate_annual_volatility pad_default np_sum round2 history = Ok None.
Proof.
  intros H. apply adj_col_none in H.
  unfold calculate_cagr, calculate_annual_volatility. by rewrite H.
Qed.

(** C7. On a price table without rows, [calculate_cagr] (for any horizons,
    so for any non-empty list of positive ones) and
    [calculate_annual_volatility] both return [None]; neither raises. *)
Theorem empty_series_no_result (pad_default : bool)
    (np_sum : list float -> float) (float_pow : float -> float -> float)
    (round2 : float -> float) (history : DataFrame) (years : list Z) :
  len history = 0 ->
  calculate_cagr float_pow round2 history years = Ok None /\
  calculate_annual_volatility pad_default np_sum round2 history = Ok None.
Proof.
  intros H. unfold calculate_cagr, calculate_annual_volatility.
  rewrite H. simpl. by destruct (adj_col history).
Qed.

(** ** Resampling a series that is already daily *)

Lemma asof_later (d : Z) (s : Series) :
  Forall (fun row => d < fst row) s ->
  forall acc,
    fold_left (fun acc row => if fst row <=? d then snd row else acc) s acc
    = acc.
Proof.
  induction 1 as [|row s Hrow _ IH]; intros acc; simpl; [done|].
  replace (fst row <=? d) with false by (symmetry; apply Z.leb_gt; lia).
  apply IH.
Qed.

Lemma asof_at (s1 s2 : Series) (row : Z * float) :
  Forall (fun r => fst row < fst r) s2 ->
  asof (s1 ++ row :: s2) (fst row) = snd row.
Proof.
  intros H. unfold asof. rewrite fold_left_app. simpl.
  rewrite Z.leb_refl. by apply asof_later.
Qed.

Lemma last_seqZ (m d : Z) (n : nat) :
  List.last (seqZ m (Z.of_nat (S n))) d = m + Z.of_nat n.
Proof. rewrite seqZ_S. apply last_last. Qed.

Lemma daily_lookup (s : Series) (d0 : Z) (i : nat) (row : Z * float) :
  map fst s = seqZ d0 (Z.of_nat (length s)) ->
  s !! i = Some row ->
  fst row = d0 + Z.of_nat i.
Proof.
  intros H Hi.
  assert ((fst <$> s) !! i = Some (fst row)) as Hf
    by (by rewrite list_lookup_fmap, Hi).
  change (fst <$> s) with (map fst s) in Hf. rewrite H in Hf.
  by apply lookup_seqZ in Hf as [-> _].
Qed.

Lemma daily_asof (s : Series) (d0 : Z) (i : nat) (row : Z * float) :
  map fst s = seqZ d0 (Z.of_nat (length s)) ->
  s !! i = Some row ->
  asof s (fst row) = snd row.
Proof.
  intros H Hi. rewrite <- (take_drop_middle s i row Hi) at 1.
  apply asof_at. apply Forall_lookup. intros k r Hk.
  rewrite lookup_drop in Hk.
  rewrite (daily_lookup s d0 i row H Hi), (daily_lookup s d0 _ r H Hk). lia.
Qed.

Lemma resample_1D_ffill_daily (s r : Series) (d0 : Z) (v0 : float) :
  s = (d0, v0) :: r ->
  map fst s = seqZ d0 (Z.of_nat (length s)) ->
  resample_1D_ffill s = s.
Proof.
  intros Es Hdates.
  transitivity
    (map (fun d => (d, asof s d))
       (seqZ d0 (List.last (map fst s) d0 - d0 + 1))); [by rewrite Es|].
  assert (length s = S (length r)) as Hlen by (by rewrite Es).
  rewrite Hdates, Hlen, last_seqZ.
  replace (d0 + Z.of_nat (length r) - d0 + 1)
    with (Z.of_nat (S (length r))) by lia.
  rewrite <- Hlen, <- Hdates. change (map ?f ?l) with (f <$> l).
  rewrite <- list_fmap_compose. apply list_eq. intros i.
  rewrite list_lookup_fmap. destruct (s !! i) as [row|] eqn:Hi; [|done].
  simpl. rewrite (daily_asof s d0 i row Hdates Hi). by destruct row.
Qed.

(** C8. On a series that already has exactly one row per calendar day from
    its first date to its last, the resampling step is the identity: the
    daily forward fill returns the series unchanged, and so does the whole
    step (fill, then drop of missing rows) when no value is missing. *)
Theorem resample_daily_identity (s : Series) :
  daily s ->
  resample_1D_ffill s = s /\
  (all_present (map snd s) = true -> resampled s = s).
Proof.
  intros Hd.
  assert (resample_1D_ffill s = s) as Hres.
  { destruct s as [|[d0 v0] r]; [done|].
    by apply (resample_1D_ffill_daily _ r d0 v0). }
  split; [done|]. intros Hp. unfold resampled. rewrite Hres.
  by apply dropna_all_present.
Qed.

(** * The claims about [calculate_annual_volatility] *)

(** ** Missing values in a quotient *)

Lemma div_nan_r_sub (x y : float) : (x / nan - y)%float = nan.
Proof.
  apply Prim2SF_inj. rewrite sub_spec, div_spec.
  change (Prim2SF nan) with S754_nan.
  unfold SF64div, SFdiv. by destruct (Prim2SF x).
Qed.

Lemma div_nan_l_sub (x y : float) : (nan / x - y)%float = nan.
Proof.
  apply Prim2SF_inj. rewrite sub_spec, div_spec.
  change (Prim2SF nan) with S754_nan. reflexivity.
Qed.

(** ** Binary64 facts: the change between two prices is defined *)


Lemma is_nan_false (x : float) : Prim2SF x <> S754_nan -> is_nan x = false.
Proof.
  unfold is_nan. rewrite FloatAxioms.eqb_spec. unfold SFeqb, SFcompare.
  destruct (Prim2SF x) as [s|s| |s m e]; intros H; try done.
  - by destruct s.
  - destruct s; rewrite Z.compare_refl, Pos.compare_cont_refl; done.
Qed.










(** ** Percentage changes of a column without missing values *)








(** ** Scaling the adjusted close *)

Lemma scale_adj_close_labels (k : float) (history : DataFrame) :
  map fst (columns (scale_adj_close k history)) = map fst (columns history).
Proof.
  unfold scale_adj_close. simpl. rewrite map_map. apply map_ext.
  intros col. by destruct (is_adjclose (fst col)).
Qed.

Lemma scale_adj_close_adj_col (k : float) (history : DataFrame) :
  adj_col (scale_adj_close k history) = adj_col history.
Proof. unfold adj_col. by rewrite scale_adj_close_labels. Qed.

Lemma combine_map_r (k : float) (l : list Z) (vs : list float) :
  combine l (map (fun p => (k * p)%float) vs)
  = map (fun row => (fst row, (k * snd row)%float)) (combine l vs).
Proof.
  revert vs. induction l as [|a l IH]; intros [|v vs]; simpl; try done.
  f_equal. apply IH.
Qed.

Lemma scale_adj_close_getitem (k : float) (history : DataFrame) (c : string)
    (col : Series) :
  is_adjclose c = true ->
  getitem history c = Ok col ->
  getitem (scale_adj_close k history) c
  = Ok (map (fun row => (fst row, (k * snd row)%float)) col).
Proof.
  intros Hc. unfold getitem, scale_adj_close. simpl.
  induction (columns history) as [|[n vs] cols IH]; simpl; [done|].
  destruct (is_adjclose n) eqn:En; simpl.
  - destruct (String.eqb n c) eqn:E; [|exact IH].
    simpl. intros [= <-]. by rewrite combine_map_r.
  - destruct (String.eqb n c) eqn:E; [|exact IH].
    apply String.eqb_eq in E as ->. congruence.
Qed.

Section Scaling.

Variable k : float.
Variable prices : list float.

Local Abbreviation scaled := (fun p => (k * p)%float).
Local Abbreviation change := (fun x y => (x / y - 1)%float).

Hypothesis keeps_missing :
  forall p, p ∈ prices -> is_nan (k * p)%float = is_nan p.
Hypothesis keeps_quotients :
  forall p q, p ∈ prices -> q ∈ prices ->
    ((k * q) / (k * p))%float = (q / p)%float.

Local Abbreviation scaled_pair := (scaled_pair k prices).

Lemma scaled_pair_change (x' x y' y : float) :
  scaled_pair x' x -> scaled_pair y' y -> change x' y' = change x y.
Proof.
  intros [[-> ->]|[Hx ->]] [[-> ->]|[Hy ->]].
  - done.
  - by rewrite !div_nan_l_sub.
  - by rewrite !div_nan_r_sub.
  - by rewrite keeps_quotients.
Qed.

Lemma scaled_pair_plain (xs : list float) :
  xs ⊆ prices -> Forall2 scaled_pair (map scaled xs) xs.
Proof.
  induction xs as [|x xs IH]; intros Hsub; simpl; constructor.
  - right. split; [|done]. apply Hsub. by left.
  - apply IH. intros y Hy. apply Hsub. by right.
Qed.

Lemma scaled_pair_ffill (xs : list float) :
  xs ⊆ prices ->
  forall prev' prev,
    scaled_pair prev' prev ->
    Forall2 scaled_pair (ffill_from prev' (map scaled xs)) (ffill_from prev xs).
Proof.
  induction xs as [|x xs IH]; intros Hsub prev' prev Hprev; simpl;
    [constructor|].
  assert (x ∈ prices) as Hx by (apply Hsub; by left).
  assert (xs ⊆ prices) as Hxs by (intros y Hy; apply Hsub; by right).
  rewrite (keeps_missing x Hx).
  assert (scaled_pair (if is_nan x then prev' else (k * x)%float)
                      (if is_nan x then prev else x)) as Hy.
  { destruct (is_nan x); [done|]. by right. }
  constructor; [done|]. by apply IH.
Qed.

Lemma scaled_pair_removelast (l' l : list float) :
  Forall2 scaled_pair l' l ->
  Forall2 scaled_pair (removelast l') (removelast l).
Proof.
  induction 1 as [|y' y l' l Hy Hl IH]; [constructor|].
  destruct Hl as [|z' z l' l Hz Hl]; [constructor|].
  change (Forall2 scaled_pair (y' :: removelast (z' :: l'))
                              (y :: removelast (z :: l))).
  by constructor.
Qed.

Lemma scaled_pair_shift1 (l' l : list float) :
  Forall2 scaled_pair l' l -> Forall2 scaled_pair (shift1 l') (shift1 l).
Proof.
  intros H. pose proof (scaled_pair_removelast _ _ H) as Hr.
  destruct H; [constructor|]. simpl shift1.
  constructor; [by left | done].
Qed.

Lemma scaled_pair_zip (a' a b' b : list float) :
  Forall2 scaled_pair a' a ->
  Forall2 scaled_pair b' b ->
  zip_with change a' b' = zip_with change a b.
Proof.
  intros Ha. revert b' b. induction Ha as [|x' x a' a Hx Ha IH];
    intros b' b Hb; [done|].
  destruct Hb as [|y' y b' b Hy Hb]; [done|]. simpl.
  rewrite (scaled_pair_change _ _ _ _ Hx Hy). f_equal. by apply IH.
Qed.

Lemma pct_change_scaled (pad_default : bool) (s : Series) :
  map snd s = prices ->
  pct_change pad_default (map (fun row => (fst row, (k * snd row)%float)) s)
  = pct_change pad_default s.
Proof.
  intros Hs. unfold pct_change. rewrite !map_map. simpl.
  change (map (fun x : Z * float => fst x) s) with (map fst s).
  f_equal.
  assert (map (fun x : Z * float => (k * snd x)%float) s
          = map scaled (map snd s)) as -> by (by rewrite map_map).
  rewrite Hs.
  assert (Forall2 scaled_pair
            (if pad_default then ffill (map scaled prices)
             else map scaled prices)
            (if pad_default then ffill prices else prices)) as Hdata.
  { destruct pad_default.
    - apply scaled_pair_ffill; [done | by left].
    - by apply scaled_pair_plain. }
  apply scaled_pair_zip; [done|]. by apply scaled_pair_shift1.
Qed.

End Scaling.

Lemma scaling_exact_spec (k : float) (prices : list float) :
  scaling_exact k prices = true ->
  (forall p, p ∈ prices -> is_nan (k * p)%float = is_nan p) /\
  (forall p q, p ∈ prices -> q ∈ prices ->
     ((k * q) / (k * p))%float = (q / p)%float).
Proof.
  unfold scaling_exact. intros H. apply andb_prop in H as [H1 H2].
  rewrite forallb_forall in H1, H2. split.
  - intros p Hp. apply list_elem_of_In in Hp.
    by apply Bool.eqb_prop, H1.
  - intros p q Hp Hq. apply list_elem_of_In in Hp, Hq.
    specialize (H2 p Hp). rewrite forallb_forall in H2.
    by apply Leibniz.eqb_spec, H2.
Qed.

(** C9, as amended. On a price table with an adjusted-close column, a
    factor k > 0 whose multiplication is exact on the adjusted-close prices
    (missing values stay missing, present ones present, and the quotient of
    any two prices is unchanged in binary64) leaves the result of
    [calculate_annual_volatility] unchanged. *)
Theorem volatility_scale_exact (pad_default : bool)
    (np_sum : list float -> float) (round2 : float -> float)
    (history : DataFrame) (c : string) (col : Series) (k : float) :
  wf_frame history = true ->
  adj_col history = Some c ->
  getitem history c = Ok col ->
  (0 <? k)%float = true ->
  scaling_exact k (map snd col) = true ->
  calculate_annual_volatility pad_default np_sum round2
    (scale_adj_close k history)
  = calculate_annual_volatility pad_default np_sum round2 history.
Proof.
  intros _ Hc Hg _ Hexact.
  apply scaling_exact_spec in Hexact as [H1 H2].
  pose proof (adj_col_in _ _ Hc) as [_ Hadj].
  unfold calculate_annual_volatility.
  rewrite scale_adj_close_adj_col, Hc.
  change (len (scale_adj_close k history)) with (len history).
  destruct (len history <? 2); [done|].
  rewrite (scale_adj_close_getitem k _ _ _ Hadj Hg), Hg. simpl mbind.
  by rewrite (pct_change_scaled k (map snd col) H1 H2).
Qed.

(** * The claims that compare the code with the series of the specification *)

(** ** The code's resampled series and the described daily series *)

Lemma is_nan_eq (x : float) : is_nan x = true -> x = nan.
Proof.
  intros H. apply Prim2SF_inj. change (Prim2SF nan) with S754_nan.
  destruct (Prim2SF x) as [s|s| |s m e] eqn:E; [..|done| ];
    rewrite is_nan_false in H by (by rewrite E); done.
Qed.

Lemma asof_snoc (s : Series) (row : Z * float) (d : Z) :
  asof (s ++ [row]) d = if fst row <=? d then snd row else asof s d.
Proof. unfold asof. by rewrite fold_left_app. Qed.

(** A value the code carries to a day is the last known adjusted close of
    that day. *)
Lemma last_known_asof (s : Series) (d : Z) :
  is_nan (asof s d) = false -> last_known s d = Some (asof s d).
Proof.
  unfold last_known. induction s as [|row s IH] using rev_ind.
  - intros H. by vm_compute in H.
  - rewrite asof_snoc, List.filter_app. simpl. unfold known_on at 2.
    destruct (fst row <=? d) eqn:E; simpl.
    + intros H. rewrite H. simpl. by rewrite last_snoc.
    + intros H. rewrite app_nil_r. by apply IH.
Qed.

Lemma asof_all_present (s : Series) (d : Z) :
  all_present (map snd s) = true ->
  forall acc,
    fold_left (fun acc row => if fst row <=? d then snd row else acc) s acc
    = from_option snd acc (last (List.filter (known_on d) s)).
Proof.
  unfold all_present. induction s as [|row s IH]; simpl; [done|].
  intros H acc. apply andb_prop in H as [Hrow H].
  rewrite (IH H). unfold known_on at 2. rewrite Hrow, andb_true_r.
  destruct (fst row <=? d); [|done].
  rewrite last_cons. by destruct (last (List.filter (known_on d) s)).
Qed.

Lemma filter_known_present (s : Series) (d : Z) (row : Z * float) :
  last (List.filter (known_on d) s) = Some row -> is_nan (snd row) = false.
Proof.
  intros H. apply last_Some_elem_of, list_elem_of_In, filter_In in H as [_ H].
  unfold known_on in H. apply andb_prop in H as [_ H].
  by apply negb_true_iff.
Qed.

Lemma last_known_leading (s : Series) (d : Z) :
  missing_only_leading (map snd s) = true ->
  last_known s d = if is_nan (asof s d) then None else Some (asof s d).
Proof.
  unfold last_known. induction s as [|row s IH]; [reflexivity|].
  change (map snd (row :: s)) with (snd row :: map snd s).
  cbn [missing_only_leading].
  destruct (is_nan (snd row)) eqn:Hrow; intros H.
  - assert (asof (row :: s) d = asof s d) as ->.
    { unfold asof. simpl.
      destruct (fst row <=? d); [by rewrite (is_nan_eq _ Hrow) | done]. }
    assert (List.filter (known_on d) (row :: s) = List.filter (known_on d) s)
      as ->.
    { simpl. unfold known_on at 1. by rewrite Hrow, andb_false_r. }
    by apply IH.
  - assert (all_present (map snd (row :: s)) = true) as Hall
      by (unfold all_present; simpl; by rewrite Hrow).
    unfold asof. rewrite (asof_all_present (row :: s) d Hall nan).
    destruct (last (List.filter (known_on d) (row :: s))) as [r|] eqn:Hl;
      simpl; [|reflexivity].
    by rewrite (filter_known_present _ _ _ Hl).
Qed.

Lemma filter_known_later (s : Series) (d d' : Z) :
  d <= d' ->
  List.filter (known_on d') s = [] -> List.filter (known_on d) s = [].
Proof.
  intros Hd. induction s as [|row s IH]; simpl; [done|].
  destruct (known_on d' row) eqn:E'; [done|]. intros H.
  assert (known_on d row = false) as ->; [|by apply IH].
  unfold known_on in *. destruct (is_nan (snd row)); simpl in *;
    [by rewrite andb_false_r|].
  rewrite andb_true_r in *. apply Z.leb_gt in E'. apply Z.leb_gt. lia.
Qed.

Lemma last_known_later (s : Series) (d d' : Z) :
  d <= d' -> is_Some (last_known s d) -> is_Some (last_known s d').
Proof.
  unfold last_known. rewrite !fmap_is_Some, !last_is_Some.
  intros Hd Hne Hnil. apply Hne. by apply (filter_known_later s d d').
Qed.

Lemma drop_leading_empty_filter (s : Series) (n : nat) :
  forall d0,
    drop_leading_empty
      (map (fun d => (d, last_known s d)) (seqZ d0 (Z.of_nat n)))
    = List.filter has_value
        (map (fun d => (d, last_known s d)) (seqZ d0 (Z.of_nat n))).
Proof.
  induction n as [|n IH]; intros d0; [done|].
  rewrite (seqZ_cons d0) by lia.
  replace (Z.pred (Z.of_nat (S n))) with (Z.of_nat n) by lia.
  simpl. unfold has_value at 1. simpl.
  destruct (last_known s d0) as [v|] eqn:E; [|apply IH].
  f_equal. symmetry. apply forallb_filter_id. rewrite forallb_forall.
  intros entry He. apply in_map_iff in He as (d & <- & Hd).
  apply list_elem_of_In, elem_of_seqZ in Hd. unfold has_value. simpl.
  destruct (last_known_later s d0 d) as [v' ->]; [lia|by rewrite E|done].
Qed.

Lemma filter_has_value_present (s : Series) (days : list Z) :
  (forall d, last_known s d
             = if is_nan (asof s d) then None else Some (asof s d)) ->
  List.filter has_value (map (fun d => (d, last_known s d)) days)
  = map present_entry
      (List.filter (fun row => negb (is_nan (snd row)))
         (map (fun d => (d, asof s d)) days)).
Proof.
  intros H. induction days as [|d days IH]; simpl; [done|].
  unfold has_value at 1. simpl. rewrite (H d).
  destruct (is_nan (asof s d)); simpl; [done|]. by rewrite IH.
Qed.

Lemma last_fst (col : Series) (row : Z * float) (d : Z) :
  last col = Some row -> List.last (map fst col) d = fst row.
Proof.
  intros H. apply last_Some in H as [l' ->].
  rewrite map_app. simpl. apply last_last.
Qed.

Lemma calendar_resample (s : Series) :
  map fst (resample_1D_ffill s) = calendar s /\
  resample_1D_ffill s = map (fun d => (d, asof s d)) (calendar s).
Proof.
  destruct s as [|[d0 v0] r]; [done|]. unfold calendar, resample_1D_ffill.
  destruct (last ((d0, v0) :: r)) as [final|] eqn:Hlast;
    [|by apply last_None in Hlast].
  simpl head. cbv iota beta. rewrite (last_fst _ _ d0 Hlast). simpl fst.
  split; [|done]. rewrite map_map. simpl. apply map_id.
Qed.

Lemma calendar_seqZ (s : Series) :
  exists d0 n, calendar s = seqZ d0 (Z.of_nat n).
Proof.
  unfold calendar. destruct (head s) as [first|]; [|by exists 0, 0%nat].
  destruct (last s) as [final|]; [|by exists 0, 0%nat].
  exists (fst first), (Z.to_nat (fst final - fst first + 1)).
  destruct (Z.le_gt_cases (fst final - fst first + 1) 0) as [Hn|Hn].
  - rewrite !seqZ_nil; [done|lia|done].
  - by rewrite Z2Nat.id by lia.
Qed.

(** Where no adjusted close is missing after the first one present, the
    series the code indexes is the series the specification describes. *)
Lemma forward_filled_daily_resampled (s : Series) :
  missing_only_leading (map snd s) = true ->
  forward_filled_daily s = map present_entry (resampled s).
Proof.
  intros Hmol. unfold forward_filled_daily, resampled, dropna.
  rewrite (proj2 (calendar_resample s)).
  destruct (calendar_seqZ s) as (d0 & n & ->).
  rewrite drop_leading_empty_filter.
  apply filter_has_value_present. intros d. by apply last_known_leading.
Qed.

(** In general the code's series is a sub-series of the described one: the
    days that follow a row with a missing adjusted close are dropped. *)
Lemma present_rows_sublist (s : Series) (days : list Z) :
  map present_entry
    (List.filter (fun row => negb (is_nan (snd row)))
       (map (fun d => (d, asof s d)) days))
  `sublist_of` map (fun d => (d, last_known s d)) days.
Proof.
  induction days as [|d days IH]; simpl; [done|].
  destruct (is_nan (asof s d)) eqn:E; simpl.
  - by apply sublist_cons.
  - rewrite (last_known_asof s d E). by apply sublist_skip.
Qed.

Lemma resampled_sublist (s : Series) :
  map present_entry (resampled s) `sublist_of` forward_filled_daily s.
Proof.
  unfold forward_filled_daily, resampled, dropna.
  rewrite (proj2 (calendar_resample s)).
  induction (calendar s) as [|d days IH]; simpl; [done|].
  destruct (last_known s d) as [v|] eqn:Ek.
  - pose proof (present_rows_sublist s (d :: days)) as H.
    simpl in H. by rewrite Ek in H.
  - destruct (is_nan (asof s d)) eqn:E; simpl; [exact IH|].
    rewrite (last_known_asof s d E) in Ek. done.
Qed.

Lemma resampled_length_described (s : Series) :
  (length (resampled s) <= length (forward_filled_daily s))%nat.
Proof.
  pose proof (sublist_length _ _ (resampled_sublist s)) as H.
  by rewrite length_map in H.
Qed.

Lemma resampled_row_known (s : Series) (row : Z * float) :
  row ∈ resampled s -> last_known s (fst row) = Some (snd row).
Proof.
  intros H. apply list_elem_of_In, filter_In in H as [Hin Hp].
  apply negb_true_iff in Hp. apply list_elem_of_In in Hin.
  apply list_elem_of_lookup in Hin as [i Hi].
  rewrite (resample_1D_ffill_lookup s i row Hi) in Hp |- *.
  by apply last_known_asof.
Qed.

(** C1, as amended. On a price table with an adjusted-close column and at
    least one row, for a positive horizon among positive horizons:
    [calculate_cagr] writes the marker "N/A" for the horizon whenever the
    forward-filled daily-resampled series of the specification (one entry
    per calendar day from the first date to the last, the last known
    adjusted close carried forward, leading empty days dropped) has fewer
    than 252 * horizon entries; and where no adjusted close is missing
    after the first one present, it writes the marker if and only if that
    series has fewer than 252 * horizon entries. *)
Theorem cagr_not_available_iff (float_pow : float -> float -> float)
    (round2 : float -> float) (history : DataFrame) (years : list Z)
    (c : string) (col : Series) (yr : Z) :
  wf_frame history = true ->
  adj_col history = Some c ->
  getitem history c = Ok col ->
  0 < len history ->
  Forall (fun y => 0 < y) years ->
  yr ∈ years ->
  exists d,
    calculate_cagr float_pow round2 history years = Ok (Some d) /\
    (Z.of_nat (length (forward_filled_daily col)) < 252 * yr ->
     d !! label yr = Some NA) /\
    (missing_only_leading (map snd col) = true ->
     (d !! label yr = Some NA <->
      Z.of_nat (length (forward_filled_daily col)) < 252 * yr)).
Proof.
  intros Hwf Hc Hg Hlen Hpos Hyr.
  destruct (calculate_cagr_unfold float_pow round2 _ years _ _ Hwf Hc Hg Hlen)
    as (row & _ & ->).
  destruct (cagr_loop_positive float_pow round2 (snd row) (resampled col)
              years Hpos ∅) as [d Hd].
  rewrite Hd. exists d. split; [done|].
  destruct (cagr_loop_lookup _ _ _ _ _ _ _ yr Hd) as [Hin _].
  destruct (Hin Hyr) as (v & Hv & ->).
  rewrite Forall_forall in Hpos. specialize (Hpos yr Hyr).
  pose proof (cagr_cell_NA float_pow round2 (snd row) (resampled col) yr Hpos)
    as HNA.
  rewrite Hv in HNA. split.
  - intros Hshort. pose proof (resampled_length_described col) as Hle.
    assert (Ok v = Ok NA) as [= ->]; [|done]. apply HNA. lia.
  - intros Hmol.
    rewrite (forward_filled_daily_resampled col Hmol), length_map.
    rewrite <- HNA. split; congruence.
Qed.

(** C2, as amended. On a price table with an adjusted-close column in which
    no adjusted close is missing after the first one present, for a positive
    horizon among positive horizons: when the forward-filled daily-resampled
    series of the specification has at least 252 * horizon entries,
    [calculate_cagr] reports for the horizon
    ((end / start) ** (1 / horizon) - 1) * 100 rounded to two decimals,
    where end is the adjusted close of the last row of the table and start
    is the entry at position 252 * horizon from the end of that series, the
    last entry being position 1: the last known adjusted close of its
    day. *)
Theorem cagr_formula (float_pow : float -> float -> float)
    (round2 : float -> float) (history : DataFrame) (years : list Z)
    (c : string) (col : Series) (yr : Z) :
  wf_frame history = true ->
  adj_col history = Some c ->
  getitem history c = Ok col ->
  missing_only_leading (map snd col) = true ->
  Forall (fun y => 0 < y) years ->
  yr ∈ years ->
  252 * yr <= Z.of_nat (length (forward_filled_daily col)) ->
  exists d end_row day start,
    last col = Some end_row /\
    reverse (forward_filled_daily col) !! Z.to_nat (252 * yr - 1)
    = Some (day, Some start) /\
    last_known col day = Some start /\
    calculate_cagr float_pow round2 history years = Ok (Some d) /\
    d !! label yr
    = Some (Pct (round2
        ((float_pow (snd end_row / start) (1 / float_of_Z yr) - 1)
         * 100)%float)).
Proof.
  intros Hwf Hc Hg Hmol Hpos Hyr Hlong.
  pose proof Hpos as Hpos'. rewrite Forall_forall in Hpos'.
  specialize (Hpos' yr Hyr).
  rewrite (forward_filled_daily_resampled col Hmol) in Hlong |- *.
  rewrite length_map in Hlong.
  destruct (wf_frame_column _ _ Hwf Hc) as (col' & Hg' & Hfst & _).
  rewrite Hg in Hg'. injection Hg' as <-.
  assert (0 < len history) as Hlen.
  { unfold len. rewrite <- Hfst, length_map.
    destruct col; [rewrite resampled_nil in Hlong; simpl in Hlong|simpl]; lia. }
  destruct (calculate_cagr_unfold float_pow round2 _ years _ _ Hwf Hc Hg Hlen)
    as (end_row & Hend & ->).
  destruct (cagr_loop_positive float_pow round2 (snd end_row) (resampled col)
              years Hpos ∅) as [d Hd].
  rewrite Hd.
  destruct (lookup_lt_is_Some_2 (reverse (resampled col))
              (Z.to_nat (252 * yr - 1))) as [start_row Hstart].
  { rewrite length_reverse. lia. }
  exists d, end_row, (fst start_row), (snd start_row).
  split; [done|]. split.
  { change (map present_entry (resampled col))
      with (present_entry <$> resampled col).
    by rewrite <- fmap_reverse, list_lookup_fmap, Hstart. }
  split.
  { apply resampled_row_known. apply elem_of_reverse.
    by apply list_elem_of_lookup_2 in Hstart. }
  split; [done|].
  destruct (cagr_loop_lookup _ _ _ _ _ _ _ yr Hd) as [Hin _].
  destruct (Hin Hyr) as (v & Hv & ->).
  rewrite (cagr_cell_Pct _ _ _ _ _ _ Hpos' Hstart) in Hv. congruence.
Qed.

(** ** The changes the volatility is taken over *)





Ltac computed := vm_compute; first [reflexivity | discriminate | done].

(** * Counterexamples to the claims as first stated *)

(** C4 as stated fails: a table of two rows (fewer than 252) that lie 260
    calendar days apart resamples to 261 daily rows and gets a one-year
    percentage, whatever the power and rounding functions. *)
Lemma cagr_raw_rows_counterexample :
  wf_frame sparse_history = true /\
  len sparse_history < 252 * 1 /\
  (forall float_pow round2,
     calculate_cagr float_pow round2 sparse_history [1]
     = Ok (Some {[ "1Y"%string :=
           Pct (round2 ((float_pow (110 / 100) 1 - 1) * 100)%float) ]})) /\
  (forall float_pow round2,
     ~ not_available (calculate_cagr float_pow round2 sparse_history [1]) 1).
Proof.
  assert (forall float_pow round2,
     calculate_cagr float_pow round2 sparse_history [1]
     = Ok (Some {[ "1Y"%string :=
           Pct (round2 ((float_pow (110 / 100) 1 - 1) * 100)%float) ]}))
    as Hcalc by (intros; vm_compute; reflexivity).
  repeat split; try done.
  intros float_pow round2 [H|(d & H & Hd)]; rewrite Hcalc in H; [done|].
  injection H as <-. by vm_compute in Hd.
Qed.

(** C9 as stated fails: doubling two equal prices at the top of the
    binary64 range overflows, the only change becomes undefined, and the
    volatility goes from 0 to a missing number. *)
Lemma volatility_scaling_counterexample :
  wf_frame huge_history = true /\
  adj_col huge_history = Some "Adj Close"%string /\
  (0 <? 2)%float = true /\
  (forall pad_default,
     calculate_annual_volatility pad_default seq_sum np_round2 huge_history
     = Ok (Some 0%float)) /\
  (forall pad_default,
     calculate_annual_volatility pad_default seq_sum np_round2
       (scale_adj_close 2 huge_history)
     = Ok (Some nan)) /\
  (forall pad_default np_sum round2,
     np_sum [0%float] = 0%float ->
     round2 nan <> round2 0%float ->
     calculate_annual_volatility pad_default np_sum round2
       (scale_adj_close 2 huge_history)
     <> calculate_annual_volatility pad_default np_sum round2 huge_history).
Proof.
  repeat split; try done.
  - by intros [].
  - by intros [].
  - intros pad_default np_sum round2 Hsum Hround.
    assert (calculate_annual_volatility pad_default np_sum round2
              (scale_adj_close 2 huge_history) = Ok (Some (round2 nan))) as ->
      by (by destruct pad_default).
    assert (calculate_annual_volatility pad_default np_sum round2 huge_history
            = Ok (Some (round2 0%float))) as ->.
    { destruct pad_default; vm_compute; rewrite Hsum; vm_compute;
        rewrite Hsum; reflexivity. }
    congruence.
Qed.

(** C1 as stated fails: with the adjusted close of the middle row missing,
    the described series has an entry for each of the 261 calendar days (the
    first close carried forward), yet the code, whose fill goes by rows and
    not by values, drops the 160 days after the middle row and writes "N/A"
    for one year. *)
Lemma cagr_interior_gap_counterexample :
  wf_frame gap_history = true /\
  adj_col gap_history = Some "Adj Close"%string /\
  getitem gap_history "Adj Close" = Ok gap_close /\
  0 < len gap_history /\
  Z.of_nat (length (forward_filled_daily gap_close)) = 261 /\
  (forall float_pow round2,
     calculate_cagr float_pow round2 gap_history [1]
     = Ok (Some {[ "1Y"%string := NA ]})) /\
  (forall float_pow round2 d,
     calculate_cagr float_pow round2 gap_history [1] = Ok (Some d) ->
     ~ (d !! label 1 = Some NA <->
        Z.of_nat (length (forward_filled_daily gap_close)) < 252 * 1)).
Proof.
  assert (Z.of_nat (length (forward_filled_daily gap_close)) = 261) as Hlen
    by computed.
  assert (forall float_pow round2,
     calculate_cagr float_pow round2 gap_history [1]
     = Ok (Some {[ "1Y"%string := NA ]})) as Hcalc
    by (intros; vm_compute; reflexivity).
  do 4 (split; [computed|]). split; [exact Hlen|]. split; [exact Hcalc|].
  intros float_pow round2 d Hd [H _]. rewrite Hcalc in Hd.
  injection Hd as <-. rewrite Hlen in H.
  assert (261 < 252 * 1) as Habs by (apply H; computed). lia.
Qed.

(** C2 as stated fails on the same table: the described series has 261
    entries and its entry 252 from the end is the first close, carried to
    day 9, but the code reports no percentage for one year. *)
Lemma cagr_formula_gap_counterexample :
  wf_frame gap_history = true /\
  adj_col gap_history = Some "Adj Close"%string /\
  getitem gap_history "Adj Close" = Ok gap_close /\
  252 * 1 <= Z.of_nat (length (forward_filled_daily gap_close)) /\
  reverse (forward_filled_daily gap_close) !! Z.to_nat (252 * 1 - 1)
  = Some (9, Some 100%float) /\
  forall float_pow round2 d v,
    calculate_cagr float_pow round2 gap_history [1; 3; 5] = Ok (Some d) ->
    d !! label 1 <> Some (Pct v).
Proof.
  do 5 (split; [computed|]).
  intros float_pow round2 d v Hd.
  assert (calculate_cagr float_pow round2 gap_history [1; 3; 5]
          = Ok (Some (<[ "5Y"%string := NA ]>
                        (<[ "3Y"%string := NA ]>
                           (<[ "1Y"%string := NA ]> ∅))))) as Hcalc
    by (vm_compute; reflexivity).
  rewrite Hcalc in Hd. injection Hd as <-. by vm_compute.
Qed.


(** * The scenarios of the specification, run on the model *)

Example scenario_hundred_days (float_pow : float -> float -> float)
    (round2 : float -> float) :
  calculate_cagr float_pow round2 hundred_days [1]
  = Ok (Some {[ "1Y"%string := NA ]}).
Proof. vm_compute. reflexivity. Qed.

Example scenario_flat_year (float_pow : float -> float -> float) :
  (forall x, float_pow x 1%float = x) ->
  calculate_cagr float_pow np_round2 flat_year [1]
  = Ok (Some {[ "1Y"%string := Pct 10%float ]}).
Proof. intros H. vm_compute. rewrite H. vm_compute. reflexivity. Qed.

(** * The theorems at concrete tables *)

Lemma cagr_not_available_iff_witness :
  wf_frame late_start_history = true /\
  adj_col late_start_history = Some "Adj Close"%string /\
  getitem late_start_history "Adj Close" = Ok late_start_close /\
  0 < len late_start_history /\
  missing_only_leading (map snd late_start_close) = true /\
  Z.of_nat (length (forward_filled_daily late_start_close)) = 296 /\
  forall float_pow round2,
    exists d,
      calculate_cagr float_pow round2 late_start_history [1; 3; 5]
      = Ok (Some d) /\
      (Z.of_nat (length (forward_filled_daily late_start_close)) < 252 * 3 ->
       d !! label 3 = Some NA) /\
      (missing_only_leading (map snd late_start_close) = true ->
       (d !! label 3 = Some NA <->
        Z.of_nat (length (forward_filled_daily late_start_close)) < 252 * 3)).
Proof.
  do 6 (split; [computed|]).
  intros float_pow round2.
  apply (cagr_not_available_iff float_pow round2 late_start_history [1; 3; 5]
           "Adj Close" late_start_close 3); try computed.
  - repeat constructor.
  - apply list_elem_of_further, list_elem_of_here.
Defined.

Lemma cagr_formula_witness :
  wf_frame late_start_history = true /\
  adj_col late_start_history = Some "Adj Close"%string /\
  getitem late_start_history "Adj Close" = Ok late_start_close /\
  missing_only_leading (map snd late_start_close) = true /\
  252 * 1 <= Z.of_nat (length (forward_filled_daily late_start_close)) /\
  forall float_pow round2,
    exists d end_row day start,
      last late_start_close = Some end_row /\
      reverse (forward_filled_daily late_start_close) !! Z.to_nat (252 * 1 - 1)
      = Some (day, Some start) /\
      last_known late_start_close day = Some start /\
      calculate_cagr float_pow round2 late_start_history [1; 3; 5]
      = Ok (Some d) /\
      d !! label 1
      = Some (Pct (round2
          ((float_pow (snd end_row / start) (1 / float_of_Z 1) - 1)
           * 100)%float)).
Proof.
  do 5 (split; [computed|]).
  intros float_pow round2.
  apply (cagr_formula float_pow round2 late_start_history [1; 3; 5]
           "Adj Close" late_start_close 1); try computed.
  - repeat constructor.
  - apply list_elem_of_here.
Defined.

Lemma cagr_available_antitone_witness :
  wf_frame long_history = true /\
  0 < 1 <= 2 /\
  forall float_pow round2,
    let d : gmap string cagr_value :=
      <[ "2Y"%string :=
           Pct (round2 ((float_pow (110 / 100) (1 / 2) - 1) * 100)%float) ]>
        (<[ "1Y"%string :=
           Pct (round2 ((float_pow (110 / 100) 1 - 1) * 100)%float) ]> ∅) in
    calculate_cagr float_pow round2 long_history [1; 2] = Ok (Some d) /\
    d !! label 2
    = Some (Pct (round2 ((float_pow (110 / 100) (1 / 2) - 1) * 100)%float)) /\
    exists v', d !! label 1 = Some (Pct v').
Proof.
  split; [computed|]. split; [lia|].
  intros float_pow round2 d.
  assert (calculate_cagr float_pow round2 long_history [1; 2] = Ok (Some d))
    as Hcalc by computed.
  assert (d !! label 2
          = Some (Pct (round2
              ((float_pow (110 / 100) (1 / 2) - 1) * 100)%float))) as Hv
    by computed.
  split; [exact Hcalc|]. split; [exact Hv|].
  apply (cagr_available_antitone float_pow round2 long_history [1; 2] d 2 1
           (round2 ((float_pow (110 / 100) (1 / 2) - 1) * 100)%float)
           eq_refl Hcalc); [| |lia|exact Hv].
  - apply list_elem_of_further, list_elem_of_here.
  - apply list_elem_of_here.
Defined.

Lemma cagr_not_available_short_span_witness :
  wf_frame week_history = true /\
  span week_history < 252 * 1 /\
  forall float_pow round2,
    not_available (calculate_cagr float_pow round2 week_history [1; 3; 5]) 1.
Proof.
  do 2 (split; [computed|]).
  intros float_pow round2.
  apply (cagr_not_available_short_span float_pow round2 week_history
           [1; 3; 5] 1); try computed.
  - repeat constructor.
  - apply list_elem_of_here.
Defined.

Lemma no_adjclose_no_result_witness :
  (forall c, c ∈ map fst (columns bare_history) -> is_adjclose c = false) /\
  forall pad_default np_sum float_pow round2,
    calculate_cagr float_pow round2 bare_history [1; 3; 5] = Ok None /\
    calculate_annual_volatility pad_default np_sum round2 bare_history
    = Ok None.
Proof.
  assert (forall c, c ∈ map fst (columns bare_history) ->
                    is_adjclose c = false) as H.
  { intros c Hc. simpl in Hc.
    apply elem_of_cons in Hc as [->|Hc]; [reflexivity|].
    apply elem_of_cons in Hc as [->|Hc]; [reflexivity|].
    by apply elem_of_nil in Hc. }
  split; [exact H|].
  intros pad_default np_sum float_pow round2.
  exact (no_adjclose_no_result pad_default np_sum float_pow round2
           bare_history [1; 3; 5] H).
Defined.

Lemma empty_series_no_result_witness :
  len empty_history = 0 /\
  forall pad_default np_sum float_pow round2,
    calculate_cagr float_pow round2 empty_history [1; 3; 5] = Ok None /\
    calculate_annual_volatility pad_default np_sum round2 empty_history
    = Ok None.
Proof.
  split; [reflexivity|].
  intros pad_default np_sum float_pow round2.
  exact (empty_series_no_result pad_default np_sum float_pow round2
           empty_history [1; 3; 5] eq_refl).
Defined.

Lemma resample_daily_identity_witness :
  daily three_days /\
  resample_1D_ffill three_days = three_days /\
  (all_present (map snd three_days) = true -> resampled three_days = three_days).
Proof.
  assert (daily three_days) as H by reflexivity.
  split; [exact H|]. exact (resample_daily_identity three_days H).
Defined.



Lemma volatility_scale_exact_witness :
  wf_frame binary_history = true /\
  adj_col binary_history = Some "Adj Close"%string /\
  getitem binary_history "Adj Close"
  = Ok [(0, 1%float); (1, 2%float); (2, 8%float)] /\
  (0 <? 2)%float = true /\
  scaling_exact 2 [1; 2; 8]%float = true /\
  forall pad_default np_sum round2,
    calculate_annual_volatility pad_default np_sum round2
      (scale_adj_close 2 binary_history)
    = calculate_annual_volatility pad_default np_sum round2 binary_history.
Proof.
  do 5 (split; [computed|]).
  intros pad_default np_sum round2.
  apply (volatility_scale_exact pad_default np_sum round2 binary_history
           "Adj Close" [(0, 1%float); (1, 2%float); (2, 8%float)] 2);
    computed.
Defined.

(** * Further properties of [calculate_cagr] *)

(** ** The table of results *)

Section CagrTable.

Variable float_pow : float -> float -> float.
Variable round2 : float -> float.
Variable end_price : float.
Variable start_price : Series.

Local Abbreviation cell := (cagr_cell float_pow round2 end_price start_price).
Local Abbreviation loop := (cagr_loop float_pow round2 end_price start_price).

Lemma cagr_loop_dom (years : list Z) :
  forall (acc d : gmap string cagr_value),
    loop acc years = Ok d ->
    dom d = dom acc ∪ list_to_set (label <$> years).
Proof.
  induction years as [|yr rest IH]; intros acc d; simpl.
  - intros [= <-]. by rewrite (right_id_L ∅ (∪)).
  - rewrite cagr_body_cell.
    destruct (cell yr) as [v|] eqn:E; simpl; [|done].
    intros Hloop. rewrite (IH _ _ Hloop), dom_insert_L.
    rewrite (comm_L (∪) {[label yr]} (dom acc)).
    by rewrite <- (assoc_L (∪)).
Qed.

(** A zero horizon stops the loop: the division [1 / yr] raises, unless the
    resampled series is empty, in which case the positional access before
    it does. *)
Lemma cagr_loop_zero (years : list Z) :
  Forall (fun y => 0 <= y) years ->
  0 ∈ years ->
  forall acc,
    loop acc years
    = Raise (match start_price with
             | [] => IndexError
             | _ => ZeroDivisionError
             end).
Proof.
  induction 1 as [|yr rest Hyr _ IH]; intros Hin acc.
  - by apply elem_of_nil in Hin.
  - simpl. destruct (decide (yr = 0)) as [->|Hne].
    + unfold cagr_body. simpl. by destruct start_price.
    + rewrite cagr_body_cell.
      destruct (cagr_cell_positive float_pow round2 end_price start_price yr)
        as [v ->]; [lia|].
      simpl. apply IH. apply elem_of_cons in Hin as [Hin|Hin]; [lia|done].
Qed.

(** The cell of a negative horizon: the row read is counted forward from
    the start of the resampled series. *)
Lemma cagr_cell_negative (yr : Z) (v : cagr_value) :
  yr < 0 ->
  cell yr = Ok v ->
  exists row,
    start_price !! Z.to_nat (252 * - yr) = Some row /\
    v = Pct (round2
          ((float_pow (end_price / snd row) (1 / float_of_Z yr) - 1)
           * 100)%float).
Proof.
  intros Hyr. unfold cagr_cell.
  replace (252 * yr <=? Z.of_nat (length start_price)) with true
    by (symmetry; apply Z.leb_le; lia).
  unfold iloc.
  replace (- (252 * yr) <? 0) with false by (symmetry; apply Z.ltb_ge; lia).
  replace (Z.to_nat (- (252 * yr))) with (Z.to_nat (252 * - yr)) by lia.
  destruct ((0 <=? - (252 * yr))
            && (- (252 * yr) <? Z.of_nat (length start_price))); [|done].
  destruct (start_price !! Z.to_nat (252 * - yr)) as [row|]; [|done].
  unfold int_truediv.
  replace (yr =? 0) with false by (symmetry; apply Z.eqb_neq; lia).
  simpl. intros [= <-]. by exists row.
Qed.

End CagrTable.

(** Positive horizons never raise on a well-formed table. *)
Lemma calculate_cagr_positive_Ok (float_pow : float -> float -> float)
    (round2 : float -> float) (history : DataFrame) (years : list Z) :
  wf_frame history = true ->
  Forall (fun y => 0 < y) years ->
  exists r, calculate_cagr float_pow round2 history years = Ok r.
Proof.
  intros Hwf Hpos.
  destruct (adj_col history) as [c|] eqn:Hc;
    [|exists None; unfold calculate_cagr; by rewrite Hc].
  destruct (len history =? 0) eqn:Hlen;
    [exists None; unfold calculate_cagr; by rewrite Hc, Hlen|].
  apply Z.eqb_neq in Hlen.
  assert (0 < len history) as Hlen' by (unfold len in *; lia).
  destruct (wf_frame_column _ _ Hwf Hc) as (col & Hg & _).
  destruct (calculate_cagr_unfold float_pow round2 _ years _ _
              Hwf Hc Hg Hlen') as (row & _ & ->).
  destruct (cagr_loop_positive float_pow round2 (snd row) (resampled col)
              years Hpos ∅) as [d ->].
  by exists (Some d).
Qed.

(** X1. On a well-formed price table, for positive horizons,
    [calculate_cagr] never raises: it returns a result, and the result is
    [None] exactly when no column resolves or the table has no row. *)
Theorem cagr_positive_horizons_return (float_pow : float -> float -> float)
    (round2 : float -> float) (history : DataFrame) (years : list Z) :
  wf_frame history = true ->
  Forall (fun y => 0 < y) years ->
  exists r,
    calculate_cagr float_pow round2 history years = Ok r /\
    (r = None <-> adj_col history = None \/ len history = 0).
Proof.
  intros Hwf Hpos.
  destruct (adj_col history) as [c|] eqn:Hc.
  - destruct (len history =? 0) eqn:Hlen.
    + exists None. unfold calculate_cagr. rewrite Hc, Hlen.
      apply Z.eqb_eq in Hlen. by intuition.
    + apply Z.eqb_neq in Hlen.
      assert (0 < len history) as Hlen' by (unfold len in *; lia).
      destruct (wf_frame_column _ _ Hwf Hc) as (col & Hg & _).
      destruct (calculate_cagr_unfold float_pow round2 _ years _ _
                  Hwf Hc Hg Hlen') as (row & _ & ->).
      destruct (cagr_loop_positive float_pow round2 (snd row) (resampled col)
                  years Hpos ∅) as [d ->].
      exists (Some d). split; [done|]. split; [done|].
      intros [?|?]; congruence.
  - exists None. unfold calculate_cagr. rewrite Hc. by intuition.
Qed.

(** X2. A table returned by [calculate_cagr] has exactly the labels of the
    requested horizons as its keys. *)
Theorem cagr_table_keys (float_pow : float -> float -> float)
    (round2 : float -> float) (history : DataFrame) (years : list Z)
    (d : gmap string cagr_value) :
  calculate_cagr float_pow round2 history years = Ok (Some d) ->
  dom d = list_to_set (label <$> years).
Proof.
  unfold calculate_cagr. intros Hcalc.
  destruct (adj_col history) as [c|]; [|done].
  destruct (len history =? 0); [done|].
  destruct (getitem history c) as [col|]; [|done]. simpl in Hcalc.
  destruct (iloc col (-1)) as [end_price|]; [|done]. simpl in Hcalc.
  destruct (cagr_loop _ _ _ _ _ years) as [d'|] eqn:Hd; [|done].
  injection Hcalc as ->.
  rewrite (cagr_loop_dom _ _ _ _ _ _ _ Hd), dom_empty_L.
  by rewrite (left_id_L ∅ (∪)).
Qed.

(** X3. Each horizon is processed independently: the cell of a requested
    horizon depends on the table and on that horizon only, not on which
    other horizons are requested with it, nor on their order or
    repetition.  (What is compared is the cell found under the label of the
    horizon; the order in which the dict lists its items follows the order
    of the request and is not modelled.) *)
Theorem cagr_horizons_independent (float_pow : float -> float -> float)
    (round2 : float -> float) (history : DataFrame) (years years' : list Z)
    (d d' : gmap string cagr_value) (yr : Z) :
  calculate_cagr float_pow round2 history years = Ok (Some d) ->
  calculate_cagr float_pow round2 history years' = Ok (Some d') ->
  yr ∈ years ->
  yr ∈ years' ->
  d !! label yr = d' !! label yr.
Proof.
  unfold calculate_cagr. intros Hd Hd' Hyr Hyr'.
  destruct (adj_col history) as [c|]; [|done].
  destruct (len history =? 0); [done|].
  destruct (getitem history c) as [col|]; [|done]. simpl in Hd, Hd'.
  destruct (iloc col (-1)) as [end_price|]; [|done]. simpl in Hd, Hd'.
  destruct (cagr_loop _ _ _ _ _ years) as [r|] eqn:Hr; [|done].
  destruct (cagr_loop _ _ _ _ _ years') as [r'|] eqn:Hr'; [|done].
  injection Hd as <-. injection Hd' as <-.
  destruct (cagr_loop_lookup _ _ _ _ _ _ _ yr Hr) as [Hin _].
  destruct (cagr_loop_lookup _ _ _ _ _ _ _ yr Hr') as [Hin' _].
  destruct (Hin Hyr) as (v & Hv & ->).
  destruct (Hin' Hyr') as (v' & Hv' & ->). congruence.
Qed.

(** X4. On a well-formed table with an adjusted-close column and at least
    one row, a zero among non-negative horizons makes [calculate_cagr]
    raise: [ZeroDivisionError], or [IndexError] when the resampled series is
    empty. *)
Theorem cagr_zero_horizon_raises (float_pow : float -> float -> float)
    (round2 : float -> float) (history : DataFrame) (years : list Z)
    (c : string) (col : Series) :
  wf_frame history = true ->
  adj_col history = Some c ->
  getitem history c = Ok col ->
  0 < len history ->
  Forall (fun y => 0 <= y) years ->
  0 ∈ years ->
  calculate_cagr float_pow round2 history years
  = Raise (match resampled col with
           | [] => IndexError
           | _ => ZeroDivisionError
           end).
Proof.
  intros Hwf Hc Hg Hlen Hnn H0.
  destruct (calculate_cagr_unfold float_pow round2 _ years _ _ Hwf Hc Hg Hlen)
    as (row & _ & ->).
  by rewrite (cagr_loop_zero float_pow round2 (snd row) (resampled col)
                years Hnn H0 ∅).
Qed.

(** X5. A negative horizon is not rejected and never marked "N/A": when
    [calculate_cagr] returns, the cell of a negative horizon yr is a
    percentage computed from the row at position 252 * |yr| counted from the
    start of the resampled series (the first row being position 0), with
    the negative exponent 1 / yr. *)
Theorem cagr_negative_horizon_reads_forward
    (float_pow : float -> float -> float) (round2 : float -> float)
    (history : DataFrame) (years : list Z) (c : string) (col : Series)
    (d : gmap string cagr_value) (yr : Z) :
  wf_frame history = true ->
  adj_col history = Some c ->
  getitem history c = Ok col ->
  calculate_cagr float_pow round2 history years = Ok (Some d) ->
  yr ∈ years ->
  yr < 0 ->
  exists end_row row,
    last col = Some end_row /\
    resampled col !! Z.to_nat (252 * - yr) = Some row /\
    d !! label yr
    = Some (Pct (round2
        ((float_pow (snd end_row / snd row) (1 / float_of_Z yr) - 1)
         * 100)%float)).
Proof.
  intros Hwf Hc Hg Hcalc Hyr Hneg.
  assert (0 < len history) as Hlen.
  { destruct (len history =? 0) eqn:E.
    - unfold calculate_cagr in Hcalc. by rewrite Hc, E in Hcalc.
    - apply Z.eqb_neq in E. unfold len in *. lia. }
  destruct (calculate_cagr_unfold float_pow round2 _ years _ _ Hwf Hc Hg Hlen)
    as (end_row & Hend & Heq).
  rewrite Heq in Hcalc.
  destruct (cagr_loop _ _ _ _ _ years) as [d'|] eqn:Hd; [|done].
  injection Hcalc as ->.
  destruct (cagr_loop_lookup _ _ _ _ _ _ _ yr Hd) as [Hin _].
  destruct (Hin Hyr) as (v & Hv & ->).
  destruct (cagr_cell_negative _ _ _ _ yr v Hneg Hv) as (row & Hrow & ->).
  by exists end_row, row.
Qed.

(** ** The resampled series of a column without missing values *)

Lemma resampled_present (history : DataFrame) (c : string) (col : Series)
    (d0 : Z) (v0 : float) (r : Series) :
  wf_frame history = true ->
  adj_col history = Some c ->
  getitem history c = Ok col ->
  all_present (map snd col) = true ->
  col = (d0, v0) :: r ->
  resampled col = map (fun d => (d, asof col d)) (seqZ d0 (span history)) /\
  0 < span history.
Proof.
  intros Hwf Hc Hg Hp Hcol.
  destruct (wf_frame_column _ _ Hwf Hc) as (col' & Hg' & Hfst & _).
  rewrite Hg in Hg'. injection Hg' as <-.
  pose proof (wf_frame_increasing _ Hwf) as Hinc.
  unfold resampled.
  rewrite dropna_all_present by (by apply resample_1D_ffill_present).
  unfold span. rewrite <- Hfst in *. subst col.
  change (map fst ((d0, v0) :: r)) with (d0 :: map fst r) in *.
  apply increasing_first_last in Hinc. split; [done | lia].
Qed.

(** X7. The look-back of [calculate_cagr] is counted in calendar days: on
    a well-formed table without missing adjusted close that spans at least
    252 * yr calendar days, the start price of a positive horizon yr is the
    adjusted close in force on the calendar day 252 * yr - 1 days before the
    last date. *)
Theorem cagr_calendar_lookback (float_pow : float -> float -> float)
    (round2 : float -> float) (history : DataFrame) (years : list Z)
    (c : string) (col : Series) (yr : Z) :
  wf_frame history = true ->
  adj_col history = Some c ->
  getitem history c = Ok col ->
  all_present (map snd col) = true ->
  Forall (fun y => 0 < y) years ->
  yr ∈ years ->
  252 * yr <= span history ->
  exists d end_row,
    last col = Some end_row /\
    calculate_cagr float_pow round2 history years = Ok (Some d) /\
    d !! label yr
    = Some (Pct (round2
        ((float_pow
            (snd end_row / asof col (fst end_row - (252 * yr - 1)))
            (1 / float_of_Z yr) - 1)
         * 100)%float)).
Proof.
  intros Hwf Hc Hg Hp Hpos Hyr Hspan.
  pose proof Hpos as Hpos'. rewrite Forall_forall in Hpos'.
  specialize (Hpos' yr Hyr).
  destruct (wf_frame_column _ _ Hwf Hc) as (col' & Hg' & Hfst & _).
  rewrite Hg in Hg'. injection Hg' as <-.
  destruct col as [|[d0 v0] r] eqn:Hcol.
  { unfold span in Hspan. rewrite <- Hfst in Hspan. simpl in Hspan. lia. }
  rewrite <- Hcol in *.
  assert (0 < len history) as Hlen.
  { unfold len. rewrite <- Hfst, length_map, Hcol. simpl. lia. }
  destruct (resampled_present _ _ _ _ _ _ Hwf Hc Hg Hp Hcol) as [Hres _].
  destruct (calculate_cagr_unfold float_pow round2 _ years _ _ Hwf Hc Hg Hlen)
    as (end_row & Hend & ->).
  destruct (cagr_loop_positive float_pow round2 (snd end_row) (resampled col)
              years Hpos ∅) as [d Hd].
  rewrite Hd. exists d, end_row. do 2 (split; [done|]).
  destruct (cagr_loop_lookup _ _ _ _ _ _ _ yr Hd) as [Hin _].
  destruct (Hin Hyr) as (v & Hv & ->). f_equal.
  assert (fst end_row = d0 + span history - 1) as Hdn.
  { rewrite <- (last_fst col end_row d0 Hend). unfold span.
    rewrite <- Hfst, Hcol. simpl. lia. }
  assert (reverse (resampled col) !! Z.to_nat (252 * yr - 1)
          = Some (fst end_row - (252 * yr - 1),
                  asof col (fst end_row - (252 * yr - 1)))) as Hrow.
  { rewrite Hres.
    rewrite reverse_lookup by (rewrite length_map, length_seqZ; lia).
    rewrite length_map, length_seqZ. change (map ?f ?l) with (f <$> l).
    rewrite list_lookup_fmap, lookup_seqZ_lt by lia.
    simpl.
    by replace (d0 + Z.of_nat (Z.to_nat (span history)
                               - S (Z.to_nat (252 * yr - 1))))
      with (fst end_row - (252 * yr - 1)) by lia. }
  rewrite (cagr_cell_Pct _ _ _ _ _ _ Hpos' Hrow) in Hv. simpl in Hv.
  congruence.
Qed.

(** ** A column of missing values *)

Lemma asof_all_missing (s : Series) (d : Z) :
  forallb is_nan (map snd s) = true ->
  forall acc, is_nan acc = true ->
    is_nan (fold_left (fun acc row => if fst row <=? d then snd row else acc)
              s acc) = true.
Proof.
  induction s as [|row s IH]; simpl; [done|].
  intros H acc Hacc. apply andb_prop in H as [Hrow H].
  apply IH; [done|]. by destruct (fst row <=? d).
Qed.

Lemma resampled_all_missing (col : Series) :
  forallb is_nan (map snd col) = true -> resampled col = [].
Proof.
  intros H. unfold resampled, dropna, resample_1D_ffill.
  destruct col as [|[d0 v0] r]; [done|].
  induction (seqZ d0 _) as [|d ds IH]; [done|]. simpl.
  unfold asof at 1.
  rewrite (asof_all_missing ((d0, v0) :: r) d H nan eq_refl). exact IH.
Qed.

(** X8. When every adjusted close of a well-formed, non-empty table is
    missing, [calculate_cagr] marks every positive horizon "N/A" (and does
    not raise). *)
Theorem cagr_all_missing (float_pow : float -> float -> float)
    (round2 : float -> float) (history : DataFrame) (years : list Z)
    (c : string) (col : Series) (yr : Z) :
  wf_frame history = true ->
  adj_col history = Some c ->
  getitem history c = Ok col ->
  0 < len history ->
  forallb is_nan (map snd col) = true ->
  Forall (fun y => 0 < y) years ->
  yr ∈ years ->
  exists d,
    calculate_cagr float_pow round2 history years = Ok (Some d) /\
    d !! label yr = Some NA.
Proof.
  intros Hwf Hc Hg Hlen Hnan Hpos Hyr.
  destruct (calculate_cagr_unfold float_pow round2 _ years _ _ Hwf Hc Hg Hlen)
    as (row & _ & ->).
  destruct (cagr_loop_positive float_pow round2 (snd row) (resampled col)
              years Hpos ∅) as [d Hd].
  rewrite Hd. exists d. split; [done|].
  destruct (cagr_loop_lookup _ _ _ _ _ _ _ yr Hd) as [Hin _].
  destruct (Hin Hyr) as (v & Hv & ->). f_equal.
  rewrite Forall_forall in Hpos. specialize (Hpos yr Hyr).
  assert (cagr_cell float_pow round2 (snd row) (resampled col) yr = Ok NA)
    as HNA.
  { apply cagr_cell_NA; [done|].
    rewrite (resampled_all_missing col Hnan). simpl. lia. }
  congruence.
Qed.

(** X9. Resampling is idempotent: a series that has been put on the daily
    calendar and filled forward is returned unchanged by a second pass. *)
Theorem resample_1D_ffill_idempotent (s : Series) :
  resample_1D_ffill (resample_1D_ffill s) = resample_1D_ffill s.
Proof.
  destruct s as [|[d0 v0] r]; [done|].
  set (s := (d0, v0) :: r).
  set (n := List.last (map fst s) d0 - d0 + 1).
  assert (resample_1D_ffill s = map (fun d => (d, asof s d)) (seqZ d0 n))
    as Hres by done.
  destruct (Z.le_gt_cases n 0) as [Hn|Hn].
  { rewrite Hres, seqZ_nil by done. done. }
  assert (map fst (resample_1D_ffill s)
          = seqZ d0 (Z.of_nat (length (resample_1D_ffill s)))) as Hdates.
  { rewrite Hres, length_map, length_seqZ, map_map. simpl.
    rewrite map_id. f_equal. lia. }
  apply (resample_1D_ffill_daily _
           (map (fun d => (d, asof s d)) (seqZ (Z.succ d0) (Z.pred n)))
           d0 (asof s d0)); [|done].
  rewrite Hres. by rewrite (seqZ_cons d0 n) at 1 by lia.
Qed.

(** * Further properties of [calculate_annual_volatility] *)

(** The table reduced to its index and the columns that pass the column
    test. *)
Definition adj_columns_only (history : DataFrame) : DataFrame :=
  {| index := index history;
     columns := List.filter (fun col => is_adjclose (fst col))
                  (columns history) |}.

(** A table with no price present. *)
Definition missing_history : DataFrame :=
  {| index := [0; 1; 2];
     columns := [("Adj Close"%string, [nan; nan; nan])] |}.

(** The week table with other dates. *)
Definition shifted_week_history : DataFrame :=
  {| index := [10; 20; 300; 4000];
     columns := columns week_history |}.

Lemma dropna_all_missing (s : Series) :
  forallb is_nan (map snd s) = true -> dropna s = [].
Proof.
  induction s as [|row s IH]; simpl; [done|].
  intros H. apply andb_prop in H as [-> H]. simpl. by apply IH.
Qed.

Lemma ffill_from_all_missing (xs : list float) :
  forallb is_nan xs = true -> ffill_from nan xs = xs.
Proof.
  induction xs as [|x xs IH]; simpl; [done|].
  intros H. apply andb_prop in H as [Hx H].
  pose proof (is_nan_eq x Hx) as ->. simpl. f_equal. by apply IH.
Qed.

Lemma changes_all_missing (xs ys : list float) :
  forallb is_nan xs = true ->
  forallb is_nan (zip_with (fun x y => x / y - 1)%float xs ys) = true.
Proof.
  revert ys. induction xs as [|x xs IH]; intros [|y ys]; simpl; try done.
  intros H. apply andb_prop in H as [Hx H].
  rewrite (is_nan_eq x Hx), div_nan_l_sub. simpl. by apply IH.
Qed.

Lemma find_filter_labels (cols : list (string * list float)) :
  List.find is_adjclose
    (map fst (List.filter (fun col => is_adjclose (fst col)) cols))
  = List.find is_adjclose (map fst cols).
Proof.
  induction cols as [|[n vs] cols IH]; simpl; [done|].
  destruct (is_adjclose n) eqn:E; simpl; by rewrite ?E.
Qed.

Lemma find_filter_column (cols : list (string * list float)) (c : string) :
  is_adjclose c = true ->
  List.find (fun col => String.eqb (fst col) c)
    (List.filter (fun col => is_adjclose (fst col)) cols)
  = List.find (fun col => String.eqb (fst col) c) cols.
Proof.
  intros Hc. induction cols as [|[n vs] cols IH]; simpl; [done|].
  destruct (is_adjclose n) eqn:E; simpl.
  - by destruct (String.eqb n c).
  - destruct (String.eqb n c) eqn:En; [|done].
    apply String.eqb_eq in En as ->. congruence.
Qed.

Lemma adj_columns_only_getitem (history : DataFrame) (c : string) :
  adj_col history = Some c ->
  getitem (adj_columns_only history) c = getitem history c.
Proof.
  intros Hc. apply adj_col_in in Hc as [_ Hc].
  unfold getitem, adj_columns_only. simpl.
  by rewrite (find_filter_column _ _ Hc).
Qed.

(** X10. Both analytics read the index and the columns that pass the
    column test, nothing else: dropping every other column changes neither
    result. *)
Theorem analytics_ignore_other_columns (pad_default : bool)
    (np_sum : list float -> float) (float_pow : float -> float -> float)
    (round2 : float -> float) (history : DataFrame) (years : list Z) :
  calculate_cagr float_pow round2 (adj_columns_only history) years
  = calculate_cagr float_pow round2 history years /\
  calculate_annual_volatility pad_default np_sum round2
    (adj_columns_only history)
  = calculate_annual_volatility pad_default np_sum round2 history.
Proof.
  assert (adj_col (adj_columns_only history) = adj_col history) as Hadj
    by apply find_filter_labels.
  unfold calculate_cagr, calculate_annual_volatility. rewrite Hadj.
  change (len (adj_columns_only history)) with (len history).
  destruct (adj_col history) as [c|] eqn:Hc; [|done].
  by rewrite (adj_columns_only_getitem _ _ Hc).
Qed.

Lemma combine_snd_same_length (i1 i2 : list Z) (vs : list float) :
  length i1 = length i2 ->
  map snd (combine i1 vs) = map snd (combine i2 vs).
Proof.
  revert i2 vs. induction i1 as [|a i1 IH]; intros [|b i2] [|v vs]; simpl;
    try done.
  intros H. f_equal. apply IH. lia.
Qed.

Lemma dropna_snd_same_length (i1 i2 : list Z) (vs : list float) :
  length i1 = length i2 ->
  map snd (dropna (combine i1 vs)) = map snd (dropna (combine i2 vs)).
Proof.
  revert i2 vs. induction i1 as [|a i1 IH]; intros [|b i2] [|v vs]; simpl;
    try done.
  intros H. destruct (is_nan v); simpl; [|f_equal]; apply IH; lia.
Qed.

(** X11. The volatility does not depend on the dates: two well-formed
    tables with the same columns and as many rows have the same
    volatility, whatever their indexes. *)
Theorem volatility_ignores_dates (pad_default : bool)
    (np_sum : list float -> float) (round2 : float -> float)
    (h1 h2 : DataFrame) :
  wf_frame h1 = true ->
  wf_frame h2 = true ->
  columns h1 = columns h2 ->
  len h1 = len h2 ->
  calculate_annual_volatility pad_default np_sum round2 h1
  = calculate_annual_volatility pad_default np_sum round2 h2.
Proof.
  intros _ _ Hcols Hlen.
  unfold calculate_annual_volatility, adj_col, getitem.
  rewrite Hcols, Hlen.
  destruct (List.find is_adjclose (map fst (columns h2))) as [c|]; [|done].
  destruct (len h2 <? 2); [done|].
  destruct (List.find _ (columns h2)) as [[n vs]|]; [|done]. simpl.
  assert (length (index h1) = length (index h2)) as Hl
    by (unfold len in Hlen; lia).
  unfold np_std, pct_change.
  rewrite (combine_snd_same_length (index h1) (index h2) vs Hl).
  rewrite (dropna_snd_same_length (map fst (combine (index h1) vs))
             (map fst (combine (index h2) vs)));
    [done | by rewrite !length_map, !length_combine, Hl].
Qed.

Lemma forallb_combine_snd (p : float -> bool) (i : list Z) (xs : list float) :
  forallb p xs = true -> forallb p (map snd (combine i xs)) = true.
Proof.
  revert xs. induction i as [|a i IH]; intros [|x xs]; simpl; try done.
  intros H. apply andb_prop in H as [-> H]. simpl. by apply IH.
Qed.

(** X12. With at least two rows but no adjusted close present, the
    volatility is not [None]: no change is defined, the standard deviation
    of nothing is a missing number, and the result is that missing number
    rounded. *)
Theorem volatility_all_missing (pad_default : bool)
    (np_sum : list float -> float) (round2 : float -> float)
    (history : DataFrame) (c : string) (col : Series) :
  wf_frame history = true ->
  adj_col history = Some c ->
  getitem history c = Ok col ->
  2 <= len history ->
  forallb is_nan (map snd col) = true ->
  calculate_annual_volatility pad_default np_sum round2 history
  = Ok (Some (round2 nan)).
Proof.
  intros _ Hc Hg Hlen Hnan. unfold calculate_annual_volatility.
  rewrite Hc.
  replace (len history <? 2) with false by (symmetry; apply Z.ltb_ge; lia).
  rewrite Hg. simpl mbind.
  assert (dropna (pct_change pad_default col) = []) as ->; [|done].
  apply dropna_all_missing. unfold pct_change.
  apply forallb_combine_snd, changes_all_missing.
  destruct pad_default; [|done].
  unfold ffill. by rewrite ffill_from_all_missing.
Qed.

(** * The column test *)

(** A label with its ASCII letters a to z written as capitals.  On a label
    of ASCII characters this is what [str.upper] returns; characters outside
    ASCII are left as they are, and nothing is said about their case. *)
Definition capital_ascii (a : ascii) : ascii :=
  let n := N_of_ascii a in
  if ((97 <=? n) && (n <=? 122))%N then ascii_of_N (n - 32) else a.

Fixpoint capitals (s : string) : string :=
  match s with
  | EmptyString => EmptyString
  | String a r => String (capital_ascii a) (capitals r)
  end.

Lemma lower_capitals (s : string) : lower (capitals s) = lower s.
Proof.
  induction s as [|a s IH]; simpl; [done|]. f_equal; [|done].
  by destruct a as [[] [] [] [] [] [] [] []].
Qed.

Lemma lower_app (s1 s2 : string) : lower (s1 +:+ s2) = lower s1 +:+ lower s2.
Proof. induction s1 as [|a s1 IH]; simpl; [done|]. by rewrite IH. Qed.

Lemma remove_spaces_app (s1 s2 : string) :
  remove_spaces (s1 +:+ s2) = remove_spaces s1 +:+ remove_spaces s2.
Proof.
  induction s1 as [|a s1 IH]; simpl; [done|].
  destruct (Ascii.eqb a " "); simpl; by rewrite IH.
Qed.

(** X13. The column test ignores the case of the ASCII letters, and
    spaces: writing any part of a label in ASCII capitals, or putting a
    space anywhere in it, does not change whether it is taken for the
    adjusted close. *)
Theorem is_adjclose_ignores_ascii_case_and_spaces (s1 s2 s3 : string) :
  is_adjclose (s1 +:+ capitals s2 +:+ s3) = is_adjclose (s1 +:+ s2 +:+ s3) /\
  is_adjclose (s1 +:+ " " +:+ s2) = is_adjclose (s1 +:+ s2).
Proof.
  unfold is_adjclose. split.
  - by rewrite !lower_app, lower_capitals.
  - by rewrite !lower_app, !remove_spaces_app.
Qed.

(** * The further properties at concrete tables *)

Lemma cagr_positive_horizons_return_witness :
  wf_frame week_history = true /\
  Forall (fun y => 0 < y) [1; 3; 5] /\
  forall float_pow round2,
    exists r,
      calculate_cagr float_pow round2 week_history [1; 3; 5] = Ok r /\
      (r = None <-> adj_col week_history = None \/ len week_history = 0).
Proof.
  assert (Forall (fun y => 0 < y) [1; 3; 5]) as Hpos
    by (repeat constructor).
  split; [computed|]. split; [exact Hpos|].
  intros float_pow round2.
  exact (cagr_positive_horizons_return float_pow round2 week_history
           [1; 3; 5] eq_refl Hpos).
Defined.

Lemma cagr_table_keys_witness :
  wf_frame week_history = true /\
  forall float_pow round2,
    let d : gmap string cagr_value :=
      <[ "5Y"%string := NA ]>
        (<[ "3Y"%string := NA ]> (<[ "1Y"%string := NA ]> ∅)) in
    calculate_cagr float_pow round2 week_history [1; 3; 5] = Ok (Some d) /\
    dom d = list_to_set (label <$> [1; 3; 5]).
Proof.
  split; [computed|]. intros float_pow round2 d.
  assert (calculate_cagr float_pow round2 week_history [1; 3; 5]
          = Ok (Some d)) as Hcalc by computed.
  split; [exact Hcalc|].
  exact (cagr_table_keys float_pow round2 week_history [1; 3; 5] d Hcalc).
Defined.

Lemma cagr_horizons_independent_witness :
  1 ∈ [1; 3; 5] /\
  1 ∈ [2; 1; 1] /\
  forall float_pow round2,
    exists d d',
      calculate_cagr float_pow round2 long_history [1; 3; 5] = Ok (Some d) /\
      calculate_cagr float_pow round2 long_history [2; 1; 1] = Ok (Some d') /\
      d !! label 1 = d' !! label 1.
Proof.
  split; [apply list_elem_of_here|].
  split; [apply list_elem_of_further, list_elem_of_here|].
  intros float_pow round2.
  eexists _, _. split; [vm_compute; reflexivity|].
  split; [vm_compute; reflexivity|].
  eapply (cagr_horizons_independent float_pow round2 long_history
            [1; 3; 5] [2; 1; 1] _ _ 1).
  - vm_compute; reflexivity.
  - vm_compute; reflexivity.
  - apply list_elem_of_here.
  - apply list_elem_of_further, list_elem_of_here.
Defined.

Lemma cagr_zero_horizon_raises_witness :
  wf_frame week_history = true /\
  adj_col week_history = Some "Adj Close"%string /\
  getitem week_history "Adj Close" = Ok week_close /\
  0 < len week_history /\
  Forall (fun y => 0 <= y) [1; 0; 3] /\
  0 ∈ [1; 0; 3] /\
  forall float_pow round2,
    calculate_cagr float_pow round2 week_history [1; 0; 3]
    = Raise ZeroDivisionError.
Proof.
  assert (Forall (fun y => 0 <= y) [1; 0; 3]) as Hnn
    by (repeat constructor; lia).
  assert (0 ∈ [1; 0; 3]) as H0
    by apply list_elem_of_further, list_elem_of_here.
  do 4 (split; [computed|]). split; [exact Hnn|]. split; [exact H0|].
  intros float_pow round2.
  exact (cagr_zero_horizon_raises float_pow round2 week_history [1; 0; 3]
           "Adj Close" week_close eq_refl eq_refl eq_refl eq_refl Hnn H0).
Defined.

Lemma cagr_negative_horizon_reads_forward_witness :
  wf_frame sparse_history = true /\
  adj_col sparse_history = Some "Adj Close"%string /\
  getitem sparse_history "Adj Close" = Ok sparse_close /\
  -1 < 0 /\
  forall float_pow round2,
    let d : gmap string cagr_value :=
      {[ "-1Y"%string :=
           Pct (round2 ((float_pow (110 / 100) (-1) - 1) * 100)%float) ]} in
    calculate_cagr float_pow round2 sparse_history [-1] = Ok (Some d) /\
    exists end_row row,
      last sparse_close = Some end_row /\
      resampled sparse_close !! Z.to_nat (252 * - -1) = Some row /\
      d !! label (-1)
      = Some (Pct (round2
          ((float_pow (snd end_row / snd row) (1 / float_of_Z (-1)) - 1)
           * 100)%float)).
Proof.
  do 3 (split; [computed|]). split; [lia|].
  intros float_pow round2 d.
  assert (calculate_cagr float_pow round2 sparse_history [-1] = Ok (Some d))
    as Hcalc by computed.
  split; [exact Hcalc|].
  apply (cagr_negative_horizon_reads_forward float_pow round2 sparse_history
           [-1] "Adj Close" sparse_close d (-1) eq_refl eq_refl eq_refl Hcalc);
    [apply list_elem_of_here | lia].
Defined.

Lemma cagr_calendar_lookback_witness :
  wf_frame sparse_history = true /\
  adj_col sparse_history = Some "Adj Close"%string /\
  getitem sparse_history "Adj Close" = Ok sparse_close /\
  all_present (map snd sparse_close) = true /\
  252 * 1 <= span sparse_history /\
  forall float_pow round2,
    exists d end_row,
      last sparse_close = Some end_row /\
      calculate_cagr float_pow round2 sparse_history [1; 3; 5]
      = Ok (Some d) /\
      d !! label 1
      = Some (Pct (round2
          ((float_pow
              (snd end_row / asof sparse_close (fst end_row - (252 * 1 - 1)))
              (1 / float_of_Z 1) - 1)
           * 100)%float)).
Proof.
  do 5 (split; [computed|]).
  intros float_pow round2.
  apply (cagr_calendar_lookback float_pow round2 sparse_history [1; 3; 5]
           "Adj Close" sparse_close 1); try computed.
  - repeat constructor.
  - apply list_elem_of_here.
Defined.

Lemma cagr_all_missing_witness :
  wf_frame missing_history = true /\
  adj_col missing_history = Some "Adj Close"%string /\
  getitem missing_history "Adj Close" = Ok [(0, nan); (1, nan); (2, nan)] /\
  0 < len missing_history /\
  forallb is_nan [nan; nan; nan] = true /\
  forall float_pow round2,
    exists d,
      calculate_cagr float_pow round2 missing_history [1; 3; 5]
      = Ok (Some d) /\
      d !! label 1 = Some NA.
Proof.
  do 5 (split; [computed|]).
  intros float_pow round2.
  apply (cagr_all_missing float_pow round2 missing_history [1; 3; 5]
           "Adj Close" [(0, nan); (1, nan); (2, nan)] 1); try computed.
  - repeat constructor.
  - apply list_elem_of_here.
Defined.

Lemma volatility_ignores_dates_witness :
  wf_frame week_history = true /\
  wf_frame shifted_week_history = true /\
  columns week_history = columns shifted_week_history /\
  len week_history = len shifted_week_history /\
  forall pad_default np_sum round2,
    calculate_annual_volatility pad_default np_sum round2 week_history
    = calculate_annual_volatility pad_default np_sum round2
        shifted_week_history.
Proof.
  do 4 (split; [computed|]).
  intros pad_default np_sum round2.
  exact (volatility_ignores_dates pad_default np_sum round2 week_history
           shifted_week_history eq_refl eq_refl eq_refl eq_refl).
Defined.

Lemma volatility_all_missing_witness :
  wf_frame missing_history = true /\
  adj_col missing_history = Some "Adj Close"%string /\
  getitem missing_history "Adj Close" = Ok [(0, nan); (1, nan); (2, nan)] /\
  2 <= len missing_history /\
  forallb is_nan [nan; nan; nan] = true /\
  forall pad_default np_sum round2,
    calculate_annual_volatility pad_default np_sum round2 missing_history
    = Ok (Some (round2 nan)).
Proof.
  do 5 (split; [computed|]).
  intros pad_default np_sum round2.
  apply (volatility_all_missing pad_default np_sum round2 missing_history
           "Adj Close" [(0, nan); (1, nan); (2, nan)]); computed.
Defined.

(** * The page: the script around the analytics (src/app.py, lines 12-48
    and 81-183)

    A run of the page is modelled by the widgets it shows, in order, the
    state of the two memoization caches, and how the run ends.  The
    provider, the formatting of numbers and the display libraries are
    variables of the section [Page]. *)

(** ** Values of the metadata record and exceptions of a run *)

(** The values the page reads from the metadata record: [None], an integer,
    a float or a string. *)
Inductive pyval : Type :=
  | PyNone
  | PyInt (n : Z)
  | PyFloat (x : float)
  | PyStr (s : string).

Abbreviation info := (gmap string pyval).

(** What the provider answers: a value, or an exception. *)
Inductive fetched (A : Type) : Type :=
  | Fetched (a : A)
  | Failed.

Arguments Fetched {A} a.
Arguments Failed {A}.

Inductive page_exn : Type :=
  | AnalyticsError (e : exn)
  | ValueError
  | TypeError
  | ProviderError
  | LibraryError.

(** ** Widgets *)

Inductive view : Type := Annualized | Cumulative | CalendarYear.

(** The calls that build the line chart. *)
Inductive mpl_call : Type :=
  | Subplots (width height : Z)
  | Plot (x : list Z) (y : list float) (color : string) (linewidth : float)
  | SetTitle (s : string) (fontsize pad : Z)
  | SetXlabel (s : string) (fontsize : Z)
  | SetYlabel (s : string) (fontsize : Z)
  | Grid (linestyle : string) (alpha : float)
  | Xticks (rotation : Z)
  | TightLayout.

Inductive figure : Type :=
  | Candlestick (history : DataFrame) (title : string)
  | LineChart (calls : list mpl_call).

(** The tables shown: the computed one, and the two literal ones of the
    source (lines 148-157 and 161-168). *)
Inductive table : Type :=
  | CagrTable (cagr_data : gmap string cagr_value)
  | CumulativeTable
  | CalendarYearTable.

(** The exported documents, by the record they are made from. *)
Inductive document : Type :=
  | CsvOf (stock_info : info)
  | PdfOf (stock_info : info).

Inductive widget : Type :=
  | StTitle (s : string)
  | StTextInput (label : string)
  | StMarkdown (s : string)
  | StWrite (v : pyval)
  | StColumns (n : Z)
  | StMetric (column : Z) (label : string) (value : pyval)
  | StCaption (s : string)
  | StPyplot (fig : figure)
  | StWarning (s : string)
  | StSelectbox (label : string) (options : list string)
  | StDataframe (t : table)
  | StDownload (label : string) (data : document) (file_name mime : string)
  | StError (s : string).

(** ** Runs *)

(** The two [st.cache_data] caches, keyed by the symbol.  The cache of
    [get_stock_info] holds what the function returned, [None] included. *)
Record caches : Type := {
  info_cache : gmap string (option info);
  history_cache : gmap string DataFrame
}.

Record run (A : Type) : Type := {
  shown : list widget;
  cached : caches;
  outcome : page_exn + A
}.

Arguments shown {A} r.
Arguments cached {A} r.
Arguments outcome {A} r.

Definition script (A : Type) : Type := caches -> run A.

#[global] Instance script_ret : MRet script :=
  fun A a c => {| shown := []; cached := c; outcome := inr a |}.

#[global] Instance script_bind : MBind script :=
  fun A B f m c =>
    let r := m c in
    match outcome r with
    | inl e => {| shown := shown r; cached := cached r; outcome := inl e |}
    | inr a =>
        let r' := f a (cached r) in
        {| shown := shown r ++ shown r';
           cached := cached r';
           outcome := outcome r' |}
    end.

Definition throw {A : Type} (e : page_exn) : script A :=
  fun c => {| shown := []; cached := c; outcome := inl e |}.

(** An exception of the analytics ends the run. *)
Definition analytics {A : Type} (r : result A) : script A :=
  match r with
  | Ok a => mret a
  | Raise e => throw (AnalyticsError e)
  end.

(** [d.get(k, default)]. *)
Definition dict_get (d : info) (k : string) (dflt : pyval) : pyval :=
  default dflt (d !! k).

(** [history.empty]: no row or no column. *)
Definition frame_empty (history : DataFrame) : bool :=
  (len history =? 0) || bool_decide (columns history = []).

Section Page.

Variable pad_default : bool.
Variable np_sum : list float -> float.
Variable float_pow : float -> float -> float.
Variable round2 : float -> float.
(** [str(x)] of a float, and the format specification [","] on an integer
    and on a float. *)
Variable str_of_float : float -> string.
Variable comma_of_int : Z -> string.
Variable comma_of_float : float -> string.
(** The provider: [yf.Ticker(symbol).info] and
    [yf.Ticker(symbol).history(period="5y", auto_adjust=False)]. *)
Variable yf_info : string -> fetched info.
Variable yf_history : string -> fetched DataFrame.
(** Whether the library call behind a widget raises. *)
Variable widget_raises : widget -> bool.

(** A call of the display library: the widget is shown unless the call
    raises. *)
Definition st (w : widget) : script unit :=
  fun c =>
    if widget_raises w
    then {| shown := []; cached := c; outcome := inl LibraryError |}
    else {| shown := [w]; cached := c; outcome := inr tt |}.

(** [f"{v}"]. *)
Definition py_str (v : pyval) : string :=
  match v with
  | PyNone => "None"
  | PyInt n => pretty n
  | PyFloat x => str_of_float x
  | PyStr s => s
  end.

(** [f"{v:,}"]: the thousands separator is refused for a string
    ([ValueError]) and for [None] ([TypeError]). *)
Definition format_comma (v : pyval) : script string :=
  match v with
  | PyNone => throw TypeError
  | PyInt n => mret (comma_of_int n)
  | PyFloat x => mret (comma_of_float x)
  | PyStr _ => throw ValueError
  end.

(** [get_stock_info] under [st.cache_data]: the provider is asked once per
    symbol; its exception becomes [None], and what the function returns is
    cached. *)
Definition get_stock_info (symbol : string) : script (option info) :=
  fun c =>
    match info_cache c !! symbol with
    | Some v => {| shown := []; cached := c; outcome := inr v |}
    | None =>
        let v := match yf_info symbol with
                 | Fetched i => Some i
                 | Failed => None
                 end in
        {| shown := [];
           cached := {| info_cache := <[symbol := v]> (info_cache c);
                        history_cache := history_cache c |};
           outcome := inr v |}
    end.

(** [get_stock_history] under [st.cache_data]: an exception of the provider
    passes through and nothing is cached for it. *)
Definition get_stock_history (symbol : string) : script DataFrame :=
  fun c =>
    match history_cache c !! symbol with
    | Some h => {| shown := []; cached := c; outcome := inr h |}
    | None =>
        match yf_history symbol with
        | Fetched h =>
            {| shown := [];
               cached := {| info_cache := info_cache c;
                            history_cache := <[symbol := h]> (history_cache c) |};
               outcome := inr h |}
        | Failed => {| shown := []; cached := c; outcome := inl ProviderError |}
        end
    end.

Definition plot_candlestick_chart (history : DataFrame) (symbol : string)
    : script unit :=
  st (StPyplot (Candlestick history (symbol +:+ " - 5 Year History"))).

Definition plot_adjusted_close_line_chart (history : DataFrame)
    (symbol : string) : script unit :=
  match adj_col history with
  | None => st (StWarning "⚠️ Adjusted close data not available for this symbol.")
  | Some c =>
      col ← analytics (getitem history c);
      st (StPyplot (LineChart
        [Subplots 10 4;
         Plot (index history) (map snd col) "#3366cc" 0x1.199999999999ap+1;
         SetTitle ("Adjusted Close Price History - " +:+ symbol +:+ " (2019–2024)")
           15 15;
         SetXlabel "Date" 12;
         SetYlabel "Price (USD)" 12;
         Grid "--" 0.5;
         Xticks 45;
         TightLayout]))
  end.

Definition export_csv (stock_info : info) : script unit :=
  st (StDownload "📥 Download CSV" (CsvOf stock_info) "company_data.csv"
        "text/csv").

Definition export_pdf (stock_info : info) : script unit :=
  st (StDownload "📥 Download PDF" (PdfOf stock_info) "company_data.pdf"
        "application/pdf").

(** Lines 129-174: what is shown for a history that is not empty. *)
Definition history_section (history : DataFrame) (query : string)
    (view_type : view) : script unit :=
  st (StMarkdown "---");;
  st (StMarkdown "### 🕯️ Candlestick Chart");;
  st (StCaption "Shows 5 years of historical price movements.");;
  plot_candlestick_chart history query;;
  st (StMarkdown "### 📈 Adjusted Close Line Chart");;
  st (StCaption "Line chart for adjusted close prices.");;
  plot_adjusted_close_line_chart history query;;
  st (StMarkdown "### 📉 Returns Overview");;
  st (StSelectbox "Select return view:"
        ["Annualized"; "Cumulative"; "Calendar Year"]);;
  match view_type with
  | Annualized =>
      cagr_data ← analytics (calculate_cagr float_pow round2 history [1; 3; 5]);
      match cagr_data with
      | Some d =>
          if bool_decide (d = ∅) then mret tt
          else st (StDataframe (CagrTable d))
      | None => mret tt
      end
  | Cumulative => st (StDataframe CumulativeTable)
  | CalendarYear => st (StDataframe CalendarYearTable)
  end;;
  st (StMarkdown "### ⚠️ Annual Risk (Volatility)");;
  annual_vol ← analytics
    (calculate_annual_volatility pad_default np_sum round2 history);
  match annual_vol with
  | Some v => st (StMetric 0 "Annual Volatility" (PyStr (str_of_float v +:+ "%")))
  | None => mret tt
  end.

(** Lines 113-180: the page of a symbol that was found; [name] is
    [stock_info['longName']]. *)
Definition company_section (stock_info : info) (name : pyval)
    (query : string) (view_type : view) : script unit :=
  st (StMarkdown ("## 🏢 " +:+ py_str name));;
  st (StMarkdown "### 📘 Company Description");;
  st (StWrite (dict_get stock_info "longBusinessSummary"
                 (PyStr "No description available.")));;
  st (StColumns 2);;
  st (StMetric 1 "Sector" (dict_get stock_info "sector" (PyStr "N/A")));;
  st (StMetric 1 "Industry" (dict_get stock_info "industry" (PyStr "N/A")));;
  cap ← format_comma (dict_get stock_info "marketCap" (PyStr "N/A"));
  st (StMetric 1 "Market Cap" (PyStr ("$" +:+ cap)));;
  st (StMetric 2 "Current Price"
        (PyStr ("$" +:+ py_str (dict_get stock_info "currentPrice"
                                  (PyStr "N/A")))));;
  st (StMetric 2 "52W Low"
        (PyStr ("$" +:+ py_str (dict_get stock_info "fiftyTwoWeekLow"
                                  (PyStr "N/A")))));;
  st (StMetric 2 "52W High"
        (PyStr ("$" +:+ py_str (dict_get stock_info "fiftyTwoWeekHigh"
                                  (PyStr "N/A")))));;
  history ← get_stock_history query;
  (if frame_empty history then mret tt
   else history_section history query view_type);;
  st (StMarkdown "---");;
  st (StMarkdown "### 📂 Export Data");;
  export_csv stock_info;;
  export_pdf stock_info.

(** Lines 105-183: one run of the script, for the upper-cased text of the
    input box and the selected view.  The test [stock_info and "longName" in
    stock_info] holds exactly when the record has the key. *)
Definition page (query : string) (view_type : view) : script unit :=
  st (StTitle "📊 Stock Info Terminal");;
  st (StTextInput "🔍 Enter stock symbol (e.g. AAPL, MSFT, TSLA)");;
  if bool_decide (query = "") then mret tt
  else
    stock_info ← get_stock_info query;
    match stock_info with
    | Some i =>
        match i !! "longName" with
        | Some name => company_section i name query view_type
        | None => st (StError "❌ Incorrect symbol, please try again.")
        end
    | None => st (StError "❌ Incorrect symbol, please try again.")
    end.

End Page.

(** ** Vocabulary for the properties of a run *)

(** Every history in the cache is a well-formed table. *)
Definition histories_wf (c : caches) : Prop :=
  forall symbol h, history_cache c !! symbol = Some h -> wf_frame h = true.

(** Not an exception of the analytics. *)
Definition outside_analytics (e : page_exn) : Prop :=
  forall x, e <> AnalyticsError x.

(** What [get_stock_info] returns for a symbol: the cached value, or else
    the provider's answer. *)
Definition info_answer (yf_info : string -> fetched info) (c : caches)
    (symbol : string) : option info :=
  match info_cache c !! symbol with
  | Some v => v
  | None =>
      match yf_info symbol with
      | Fetched i => Some i
      | Failed => None
      end
  end.

(** The lines drawn by the line charts among the widgets shown. *)
Definition plotted_line (call : mpl_call) : option (list Z * list float) :=
  match call with
  | Plot x y _ _ => Some (x, y)
  | _ => None
  end.

Definition plotted_lines (ws : list widget) : list (list Z * list float) :=
  flat_map (fun w =>
              match w with
              | StPyplot (LineChart calls) => omap plotted_line calls
              | _ => []
              end) ws.

(** Caches before the first run. *)
Definition no_caches : caches := {| info_cache := ∅; history_cache := ∅ |}.

(** A metadata record with a name and no market capitalisation. *)
Definition sample_info : info :=
  <[ "longName"%string := PyStr "Acme Corp" ]>
    (<[ "sector"%string := PyStr "Industrials" ]> ∅).

(** A metadata record with a name and a market capitalisation. *)
Definition listed_info : info :=
  <[ "marketCap"%string := PyInt 1250000000 ]> sample_info.

(** ** Reasoning about runs *)

(** When [m] starts from caches satisfying [P], it ends with a value and
    caches satisfying [Q], or with an exception satisfying [E]. *)
Definition triple {A : Type} (P : caches -> Prop) (m : script A)
    (Q : A -> caches -> Prop) (E : page_exn -> Prop) : Prop :=
  forall c, P c ->
    match outcome (m c) with
    | inl e => E e
    | inr a => Q a (cached (m c))
    end.

Lemma triple_ret {A : Type} (P : caches -> Prop) (a : A)
    (E : page_exn -> Prop) :
  triple P (mret a) (fun _ => P) E.
Proof. intros c Hc. exact Hc. Qed.

Lemma triple_bind {A B : Type} (P : caches -> Prop) (m : script A)
    (R : A -> caches -> Prop) (f : A -> script B)
    (Q : B -> caches -> Prop) (E : page_exn -> Prop) :
  triple P m R E ->
  (forall a, triple (R a) (f a) Q E) ->
  triple P (m ≫= f) Q E.
Proof.
  intros Hm Hf c Hc. specialize (Hm c Hc).
  unfold mbind, script_bind. simpl.
  destruct (outcome (m c)) as [e|a]; simpl; [done|].
  exact (Hf a _ Hm).
Qed.

Lemma triple_throw {A : Type} (P : caches -> Prop) (e : page_exn)
    (Q : A -> caches -> Prop) (E : page_exn -> Prop) :
  E e -> triple P (throw e) Q E.
Proof. intros He c _. exact He. Qed.

Lemma triple_pure {A : Type} (phi : Prop) (P : caches -> Prop)
    (m : script A) (Q : A -> caches -> Prop) (E : page_exn -> Prop) :
  (phi -> triple P m Q E) ->
  triple (fun c => phi /\ P c) m Q E.
Proof. intros H c [Hphi Hc]. by apply H. Qed.

Section PageFacts.

Variable pad_default : bool.
Variable np_sum : list float -> float.
Variable float_pow : float -> float -> float.
Variable round2 : float -> float.
Variable str_of_float : float -> string.
Variable comma_of_int : Z -> string.
Variable comma_of_float : float -> string.
Variable yf_info : string -> fetched info.
Variable yf_history : string -> fetched DataFrame.
Variable widget_raises : widget -> bool.

Lemma triple_st (P : caches -> Prop) (w : widget) :
  triple P (st widget_raises w) (fun _ => P) outside_analytics.
Proof.
  intros c Hc. unfold st. by destruct (widget_raises w).
Qed.

Lemma triple_format_comma (P : caches -> Prop) (v : pyval) :
  triple P (format_comma comma_of_int comma_of_float v) (fun _ => P)
    outside_analytics.
Proof. intros c Hc. by destruct v. Qed.

Lemma triple_get_stock_info (symbol : string) :
  triple histories_wf (get_stock_info yf_info symbol)
    (fun _ => histories_wf) outside_analytics.
Proof.
  intros c Hc. unfold get_stock_info.
  by destruct (info_cache c !! symbol).
Qed.

Lemma triple_get_stock_history (symbol : string) :
  (forall s h, yf_history s = Fetched h -> wf_frame h = true) ->
  triple histories_wf (get_stock_history yf_history symbol)
    (fun h c => wf_frame h = true /\ histories_wf c) outside_analytics.
Proof.
  intros Hyf c Hc. unfold get_stock_history.
  destruct (history_cache c !! symbol) as [h|] eqn:E; simpl.
  - split; [by apply (Hc symbol) | done].
  - destruct (yf_history symbol) as [h|] eqn:Eh; simpl; [|done].
    split; [by apply (Hyf symbol)|].
    intros s h'. simpl. destruct (decide (symbol = s)) as [->|Hne].
    + rewrite lookup_insert_eq. intros [= <-]. by apply (Hyf s).
    + rewrite lookup_insert_ne by done. apply Hc.
Qed.

Lemma triple_analytics {A : Type} (P : caches -> Prop) (r : result A) :
  (exists a, r = Ok a) ->
  triple P (analytics r) (fun _ => P) outside_analytics.
Proof. intros [a ->] c Hc. exact Hc. Qed.

Lemma calculate_annual_volatility_Ok (history : DataFrame) :
  exists r,
    calculate_annual_volatility pad_default np_sum round2 history = Ok r.
Proof.
  unfold calculate_annual_volatility.
  destruct (adj_col history) as [c|] eqn:Hc; [|by eexists].
  destruct (len history <? 2); [by eexists|].
  destruct (adj_col_getitem _ _ Hc) as (values & _ & ->). by eexists.
Qed.

Lemma triple_line_chart (P : caches -> Prop) (history : DataFrame)
    (symbol : string) :
  triple P (plot_adjusted_close_line_chart widget_raises history symbol)
    (fun _ => P) outside_analytics.
Proof.
  unfold plot_adjusted_close_line_chart.
  destruct (adj_col history) as [c|] eqn:Hc; [|apply triple_st].
  eapply triple_bind; [|intros col; apply triple_st].
  apply triple_analytics.
  destruct (adj_col_getitem _ _ Hc) as (values & _ & ->). by eexists.
Qed.

Lemma triple_history_section (P : caches -> Prop) (history : DataFrame)
    (query : string) (view_type : view) :
  wf_frame history = true ->
  triple P
    (history_section pad_default np_sum float_pow round2 str_of_float
       widget_raises history query view_type)
    (fun _ => P) outside_analytics.
Proof.
  intros Hwf. unfold history_section, plot_candlestick_chart.
  do 6 (eapply triple_bind; [apply triple_st|intros ?]).
  eapply triple_bind; [apply triple_line_chart|intros ?].
  do 2 (eapply triple_bind; [apply triple_st|intros ?]).
  eapply triple_bind; [|intros ?].
  { destruct view_type; try apply triple_st.
    eapply triple_bind; [|intros cagr_data].
    - apply triple_analytics.
      apply calculate_cagr_positive_Ok; [done|]. repeat constructor.
    - destruct cagr_data as [d|]; [|apply triple_ret].
      destruct (bool_decide (d = ∅)); [apply triple_ret | apply triple_st]. }
  eapply triple_bind; [apply triple_st|intros ?].
  eapply triple_bind; [|intros annual_vol].
  - apply triple_analytics, calculate_annual_volatility_Ok.
  - destruct annual_vol; [apply triple_st | apply triple_ret].
Qed.

(** X19. A run of the page never fails inside the analytics: when the
    provider's histories (and the cached ones) are well-formed tables, no
    run ends with an exception raised by [calculate_cagr],
    [calculate_annual_volatility] or the column access of the line chart,
    whatever the query, the view, the metadata and the display libraries
    do. *)
Theorem page_never_fails_in_analytics (query : string) (view_type : view)
    (c : caches) (e : exn) :
  (forall s h, yf_history s = Fetched h -> wf_frame h = true) ->
  histories_wf c ->
  outcome (page pad_default np_sum float_pow round2 str_of_float
             comma_of_int comma_of_float yf_info yf_history widget_raises
             query view_type c)
  <> inl (AnalyticsError e).
Proof.
  intros Hyf Hc.
  assert (triple histories_wf
            (page pad_default np_sum float_pow round2 str_of_float
               comma_of_int comma_of_float yf_info yf_history widget_raises
               query view_type)
            (fun _ => histories_wf) outside_analytics) as Hpage.
  { unfold page.
    do 2 (eapply triple_bind; [apply triple_st|intros ?]).
    destruct (bool_decide (query = "")); [apply triple_ret|].
    eapply triple_bind; [apply triple_get_stock_info|intros stock_info].
    destruct stock_info as [i|]; [|apply triple_st].
    destruct (i !! "longName") as [name|]; [|apply triple_st].
    unfold company_section, export_csv, export_pdf.
    do 6 (eapply triple_bind; [apply triple_st|intros ?]).
    eapply triple_bind; [apply triple_format_comma|intros cap].
    do 4 (eapply triple_bind; [apply triple_st|intros ?]).
    eapply triple_bind;
      [by apply triple_get_stock_history|intros history].
    eapply triple_bind; [|intros ?].
    { apply triple_pure. intros Hwf.
      destruct (frame_empty history);
        [apply triple_ret | by apply triple_history_section]. }
    do 3 (eapply triple_bind; [apply triple_st|intros ?]).
    apply triple_st. }
  specialize (Hpage c Hc). intros Heq. rewrite Heq in Hpage.
  by apply (Hpage e).
Qed.

End PageFacts.

Section PageRuns.

Variable pad_default : bool.
Variable np_sum : list float -> float.
Variable float_pow : float -> float -> float.
Variable round2 : float -> float.
Variable str_of_float : float -> string.
Variable comma_of_int : Z -> string.
Variable comma_of_float : float -> string.
Variable yf_info : string -> fetched info.
Variable yf_history : string -> fetched DataFrame.
Variable widget_raises : widget -> bool.

Hypothesis no_widget_raises : forall w, widget_raises w = false.

Local Abbreviation the_page :=
  (page pad_default np_sum float_pow round2 str_of_float comma_of_int
     comma_of_float yf_info yf_history widget_raises).

Lemma st_shown (w : widget) (c : caches) :
  st widget_raises w c = {| shown := [w]; cached := c; outcome := inr tt |}.
Proof. unfold st. by rewrite no_widget_raises. Qed.

(** A step that shows nothing, then the rest of the run. *)
Lemma run_bind_silent {A B : Type} (m : script A) (f : A -> script B)
    (c c1 : caches) (a : A) :
  m c = {| shown := []; cached := c1; outcome := inr a |} ->
  (m ≫= f) c = f a c1.
Proof.
  intros Hm. unfold mbind, script_bind. rewrite Hm. simpl.
  by destruct (f a c1).
Qed.

(** A step that raises ends the run. *)
Lemma run_bind_raise {A B : Type} (m : script A) (f : A -> script B)
    (c c1 : caches) (ws : list widget) (e : page_exn) :
  m c = {| shown := ws; cached := c1; outcome := inl e |} ->
  (m ≫= f) c = {| shown := ws; cached := c1; outcome := inl e |}.
Proof. intros Hm. unfold mbind, script_bind. by rewrite Hm. Qed.

(** A widget, then the rest of the run. *)
Lemma run_st_bind {B : Type} (w : widget) (f : unit -> script B)
    (c c2 : caches) (ws : list widget) (o : page_exn + B) :
  f tt c = {| shown := ws; cached := c2; outcome := o |} ->
  (st widget_raises w ≫= f) c
  = {| shown := w :: ws; cached := c2; outcome := o |}.
Proof.
  intros Hf. unfold mbind, script_bind. rewrite st_shown. simpl.
  by rewrite Hf.
Qed.

Lemma get_stock_info_answer (symbol : string) (c : caches) :
  exists c',
    get_stock_info yf_info symbol c
    = {| shown := []; cached := c';
         outcome := inr (info_answer yf_info c symbol) |} /\
    history_cache c' = history_cache c.
Proof.
  unfold get_stock_info, info_answer.
  destruct (info_cache c !! symbol); eexists; split; done.
Qed.

(** X17. For a query whose metadata lookup returns [None] or a record
    without "longName", the page shows the title, the input box and the
    "incorrect symbol" message, ends normally, and does not ask for the
    price history (display calls not raising). *)
Theorem page_unknown_symbol (query : string) (view_type : view)
    (c : caches) :
  query <> "" ->
  info_answer yf_info c query ≫= (fun i => i !! "longName") = None ->
  shown (the_page query view_type c)
  = [StTitle "📊 Stock Info Terminal";
     StTextInput "🔍 Enter stock symbol (e.g. AAPL, MSFT, TSLA)";
     StError "❌ Incorrect symbol, please try again."] /\
  outcome (the_page query view_type c) = inr tt /\
  history_cache (cached (the_page query view_type c)) = history_cache c.
Proof.
  intros Hq Hname.
  destruct (get_stock_info_answer query c) as (c' & Hinfo & Hc').
  assert (the_page query view_type c
          = {| shown := [StTitle "📊 Stock Info Terminal";
                         StTextInput "🔍 Enter stock symbol (e.g. AAPL, MSFT, TSLA)";
                         StError "❌ Incorrect symbol, please try again."];
               cached := c'; outcome := inr tt |}) as ->; [|done].
  unfold page. do 2 apply run_st_bind.
  rewrite bool_decide_eq_false_2 by done.
  rewrite (run_bind_silent _ _ _ _ _ Hinfo).
  destruct (info_answer yf_info c query) as [i|]; simpl in Hname.
  - rewrite Hname. apply st_shown.
  - apply st_shown.
Qed.

(** X18. For a symbol that is found but whose record has no "marketCap",
    the page raises [ValueError] while formatting the market capitalisation
    (the thousands separator applied to the default "N/A"): the run stops
    after the Sector and Industry metrics, before any price history is
    fetched, chart drawn or export offered (display calls not raising). *)
Theorem page_missing_market_cap (query : string) (view_type : view)
    (c : caches) (i : info) (name : pyval) :
  query <> "" ->
  info_answer yf_info c query = Some i ->
  i !! "longName" = Some name ->
  i !! "marketCap" = None ->
  outcome (the_page query view_type c) = inl ValueError /\
  shown (the_page query view_type c)
  = [StTitle "📊 Stock Info Terminal";
     StTextInput "🔍 Enter stock symbol (e.g. AAPL, MSFT, TSLA)";
     StMarkdown ("## 🏢 " +:+ py_str str_of_float name);
     StMarkdown "### 📘 Company Description";
     StWrite (dict_get i "longBusinessSummary"
                (PyStr "No description available."));
     StColumns 2;
     StMetric 1 "Sector" (dict_get i "sector" (PyStr "N/A"));
     StMetric 1 "Industry" (dict_get i "industry" (PyStr "N/A"))] /\
  history_cache (cached (the_page query view_type c)) = history_cache c.
Proof.
  intros Hq Hinfo Hname Hcap.
  destruct (get_stock_info_answer query c) as (c' & Hrun & Hc').
  rewrite Hinfo in Hrun.
  assert (the_page query view_type c
          = {| shown :=
                 [StTitle "📊 Stock Info Terminal";
                  StTextInput "🔍 Enter stock symbol (e.g. AAPL, MSFT, TSLA)";
                  StMarkdown ("## 🏢 " +:+ py_str str_of_float name);
                  StMarkdown "### 📘 Company Description";
                  StWrite (dict_get i "longBusinessSummary"
                             (PyStr "No description available."));
                  StColumns 2;
                  StMetric 1 "Sector" (dict_get i "sector" (PyStr "N/A"));
                  StMetric 1 "Industry"
                    (dict_get i "industry" (PyStr "N/A"))];
               cached := c'; outcome := inl ValueError |}) as ->; [|done].
  unfold page. do 2 apply run_st_bind.
  rewrite bool_decide_eq_false_2 by done.
  rewrite (run_bind_silent _ _ _ _ _ Hrun), Hname.
  unfold company_section. do 6 apply run_st_bind.
  apply run_bind_raise.
  unfold dict_get. by rewrite Hcap.
Qed.

Local Abbreviation the_chart :=
  (plot_adjusted_close_line_chart widget_raises).

(** X14. The line chart and the volatility agree on the column: on a
    well-formed table of at least two rows, the chart shows the warning
    exactly when [calculate_annual_volatility] returns [None], and
    otherwise draws one line with one point per row, the dates against the
    values of the very column the analytics read (display calls not
    raising). *)
Theorem line_chart_agrees_with_volatility (history : DataFrame)
    (symbol : string) (c : caches) :
  wf_frame history = true ->
  2 <= len history ->
  outcome (the_chart history symbol c) = inr tt /\
  (calculate_annual_volatility pad_default np_sum round2 history = Ok None
   <-> shown (the_chart history symbol c)
       = [StWarning "⚠️ Adjusted close data not available for this symbol."]) /\
  (forall label col,
     adj_col history = Some label ->
     getitem history label = Ok col ->
     plotted_lines (shown (the_chart history symbol c))
     = [(index history, map snd col)] /\
     length (map snd col) = length (index history)).
Proof.
  intros Hwf Hlen.
  unfold plot_adjusted_close_line_chart, calculate_annual_volatility.
  destruct (adj_col history) as [label|] eqn:Hc.
  - destruct (wf_frame_column _ _ Hwf Hc) as (col & Hg & Hfst & _).
    rewrite Hg.
    rewrite (run_bind_silent (analytics (Ok col)) _ c c col eq_refl).
    rewrite st_shown. simpl.
    replace (len history <? 2) with false by (symmetry; apply Z.ltb_ge; lia).
    split; [done|]. split; [split; done|].
    intros label' col' [= <-] Hg'. rewrite Hg in Hg'. injection Hg' as <-.
    split; [done|]. by rewrite <- Hfst, !length_map.
  - rewrite st_shown. simpl. split; [done|]. split; [done|]. done.
Qed.

End PageRuns.

(** X15. [get_stock_info] never raises, and its answer for a symbol is
    kept: a second call returns what the first returned, whatever the
    provider answers by then.  In particular a failed lookup stays [None]. *)
Theorem get_stock_info_answer_is_kept (yf1 yf2 : string -> fetched info)
    (symbol : string) (c : caches) :
  exists v,
    outcome (get_stock_info yf1 symbol c) = inr v /\
    outcome (get_stock_info yf2 symbol
               (cached (get_stock_info yf1 symbol c))) = inr v /\
    (info_cache c !! symbol = None -> yf1 symbol = Failed -> v = None).
Proof.
  unfold get_stock_info.
  destruct (info_cache c !! symbol) as [v|] eqn:E; simpl.
  - exists v. rewrite E. done.
  - eexists. split; [done|]. rewrite lookup_insert_eq. split; [done|].
    by intros _ ->.
Qed.

(** X16. [get_stock_history] lets a provider failure through without
    caching it: the next call asks the provider again, and a history once
    fetched is returned from then on. *)
Theorem get_stock_history_failure_is_retried
    (yf1 yf2 yf3 : string -> fetched DataFrame) (symbol : string)
    (c : caches) (h : DataFrame) :
  history_cache c !! symbol = None ->
  yf1 symbol = Failed ->
  yf2 symbol = Fetched h ->
  outcome (get_stock_history yf1 symbol c) = inl ProviderError /\
  outcome (get_stock_history yf2 symbol
             (cached (get_stock_history yf1 symbol c))) = inr h /\
  outcome (get_stock_history yf3 symbol
             (cached (get_stock_history yf2 symbol
                        (cached (get_stock_history yf1 symbol c))))) = inr h.
Proof.
  intros Hc H1 H2. unfold get_stock_history.
  rewrite Hc, H1. simpl. rewrite Hc, H2. simpl.
  by rewrite lookup_insert_eq.
Qed.

(** ** The properties of the page at concrete runs *)

Lemma line_chart_agrees_with_volatility_witness :
  wf_frame week_history = true /\
  2 <= len week_history /\
  forall pad_default np_sum round2,
    outcome (plot_adjusted_close_line_chart (fun _ => false) week_history
               "ACME" no_caches) = inr tt /\
    (calculate_annual_volatility pad_default np_sum round2 week_history
     = Ok None
     <-> shown (plot_adjusted_close_line_chart (fun _ => false) week_history
                  "ACME" no_caches)
         = [StWarning "⚠️ Adjusted close data not available for this symbol."]) /\
    (forall label col,
       adj_col week_history = Some label ->
       getitem week_history label = Ok col ->
       plotted_lines
         (shown (plot_adjusted_close_line_chart (fun _ => false) week_history
                   "ACME" no_caches))
       = [(index week_history, map snd col)] /\
       length (map snd col) = length (index week_history)).
Proof.
  do 2 (split; [computed|]).
  intros pad_default np_sum round2.
  apply (line_chart_agrees_with_volatility pad_default np_sum round2
           (fun _ => false) (fun _ => eq_refl) week_history "ACME" no_caches);
    computed.
Defined.

Lemma get_stock_info_answer_is_kept_witness :
  info_cache no_caches !! "ZZZZ"%string = None /\
  exists v,
    outcome (get_stock_info (fun _ => Failed) "ZZZZ" no_caches) = inr v /\
    outcome (get_stock_info (fun _ => Fetched sample_info) "ZZZZ"
               (cached (get_stock_info (fun _ => Failed) "ZZZZ" no_caches)))
    = inr v /\
    v = None.
Proof.
  split; [computed|].
  destruct (get_stock_info_answer_is_kept
              (fun _ => Failed) (fun _ => Fetched sample_info)
              "ZZZZ" no_caches) as (v & H1 & H2 & H3).
  exists v. split; [exact H1|]. split; [exact H2|].
  apply H3; computed.
Defined.

Lemma get_stock_history_failure_is_retried_witness :
  history_cache no_caches !! "ACME"%string = None /\
  outcome (get_stock_history (fun _ => Failed) "ACME" no_caches)
  = inl ProviderError /\
  outcome (get_stock_history (fun _ => Fetched week_history) "ACME"
             (cached (get_stock_history (fun _ => Failed) "ACME" no_caches)))
  = inr week_history /\
  outcome (get_stock_history (fun _ => Failed) "ACME"
             (cached (get_stock_history (fun _ => Fetched week_history) "ACME"
                        (cached (get_stock_history (fun _ => Failed) "ACME"
                                   no_caches)))))
  = inr week_history.
Proof.
  split; [computed|].
  apply (get_stock_history_failure_is_retried
           (fun _ => Failed) (fun _ => Fetched week_history) (fun _ => Failed)
           "ACME" no_caches week_history); computed.
Defined.

Lemma page_unknown_symbol_witness :
  "ZZZZ"%string <> ""%string /\
  info_answer (fun _ => Failed) no_caches "ZZZZ"
    ≫= (fun i => i !! "longName"%string) = None /\
  forall pad_default np_sum float_pow round2 str_of_float comma_of_int
         comma_of_float yf_history view_type,
    shown (page pad_default np_sum float_pow round2 str_of_float
             comma_of_int comma_of_float (fun _ => Failed) yf_history
             (fun _ => false) "ZZZZ" view_type no_caches)
    = [StTitle "📊 Stock Info Terminal";
       StTextInput "🔍 Enter stock symbol (e.g. AAPL, MSFT, TSLA)";
       StError "❌ Incorrect symbol, please try again."] /\
    outcome (page pad_default np_sum float_pow round2 str_of_float
               comma_of_int comma_of_float (fun _ => Failed) yf_history
               (fun _ => false) "ZZZZ" view_type no_caches) = inr tt /\
    history_cache
      (cached (page pad_default np_sum float_pow round2 str_of_float
                 comma_of_int comma_of_float (fun _ => Failed) yf_history
                 (fun _ => false) "ZZZZ" view_type no_caches))
    = history_cache no_caches.
Proof.
  do 2 (split; [computed|]).
  intros pad_default np_sum float_pow round2 str_of_float comma_of_int
         comma_of_float yf_history view_type.
  apply (page_unknown_symbol pad_default np_sum float_pow round2
           str_of_float comma_of_int comma_of_float (fun _ => Failed)
           yf_history (fun _ => false) (fun _ => eq_refl)
           "ZZZZ" view_type no_caches); computed.
Defined.

Lemma page_missing_market_cap_witness :
  "ACME"%string <> ""%string /\
  info_answer (fun _ => Fetched sample_info) no_caches "ACME"
  = Some sample_info /\
  sample_info !! "longName"%string = Some (PyStr "Acme Corp") /\
  sample_info !! "marketCap"%string = None /\
  forall pad_default np_sum float_pow round2 str_of_float comma_of_int
         comma_of_float yf_history view_type,
    outcome (page pad_default np_sum float_pow round2 str_of_float
               comma_of_int comma_of_float (fun _ => Fetched sample_info)
               yf_history (fun _ => false) "ACME" view_type no_caches)
    = inl ValueError /\
    shown (page pad_default np_sum float_pow round2 str_of_float
             comma_of_int comma_of_float (fun _ => Fetched sample_info)
             yf_history (fun _ => false) "ACME" view_type no_caches)
    = [StTitle "📊 Stock Info Terminal";
       StTextInput "🔍 Enter stock symbol (e.g. AAPL, MSFT, TSLA)";
       StMarkdown ("## 🏢 " +:+ py_str str_of_float (PyStr "Acme Corp"));
       StMarkdown "### 📘 Company Description";
       StWrite (dict_get sample_info "longBusinessSummary"
                  (PyStr "No description available."));
       StColumns 2;
       StMetric 1 "Sector" (dict_get sample_info "sector" (PyStr "N/A"));
       StMetric 1 "Industry" (dict_get sample_info "industry" (PyStr "N/A"))] /\
    history_cache
      (cached (page pad_default np_sum float_pow round2 str_of_float
                 comma_of_int comma_of_float (fun _ => Fetched sample_info)
                 yf_history (fun _ => false) "ACME" view_type no_caches))
    = history_cache no_caches.
Proof.
  do 4 (split; [computed|]).
  intros pad_default np_sum float_pow round2 str_of_float comma_of_int
         comma_of_float yf_history view_type.
  apply (page_missing_market_cap pad_default np_sum float_pow round2
           str_of_float comma_of_int comma_of_float
           (fun _ => Fetched sample_info) yf_history (fun _ => false)
           (fun _ => eq_refl) "ACME" view_type no_caches sample_info
           (PyStr "Acme Corp")); computed.
Defined.

Lemma page_never_fails_in_analytics_witness :
  wf_frame week_history = true /\
  histories_wf no_caches /\
  forall pad_default np_sum float_pow round2 str_of_float comma_of_int
         comma_of_float widget_raises view_type e,
    outcome (page pad_default np_sum float_pow round2 str_of_float
               comma_of_int comma_of_float (fun _ => Fetched listed_info)
               (fun _ => Fetched week_history) widget_raises
               "ACME" view_type no_caches)
    <> inl (AnalyticsError e).
Proof.
  split; [computed|].
  assert (histories_wf no_caches) as Hno.
  { intros symbol h Hh. simpl in Hh. by rewrite lookup_empty in Hh. }
  split; [exact Hno|].
  intros pad_default np_sum float_pow round2 str_of_float comma_of_int
         comma_of_float widget_raises view_type e.
  apply (page_never_fails_in_analytics pad_default np_sum float_pow round2
           str_of_float comma_of_int comma_of_float
           (fun _ => Fetched listed_info) (fun _ => Fetched week_history)
           widget_raises "ACME" view_type no_caches e); [|exact Hno].
  intros s h [= <-]. computed.
Defined.
